(** * RetroCam: the capture session and the snapshot pipeline of [src/App.tsx]

    The React component [App] is embedded as explicit state passing.  The
    [useState] cells become the record [AppState]; the two refs, the pending
    [setTimeout] callbacks and the camera bookkeeping live next to it.  Event
    handlers are functions on that state, taking the readings of the clock as
    arguments.  React renders between any two events, so a handler runs with
    the state of the moment it is called; the closures that outlive a render
    (the effect and its cleanup) are modelled with the state they captured.
    What the browser supplies (the pixel semantics of a CSS filter string,
    the image encoder behind [toDataURL]) is gathered in the record
    [Browser], over which the handlers are parametrised. *)

From Stdlib Require Import ZArith List String Bool Lia Sorted.
From Stdlib Require Import QArith_base DecimalString DecimalZ.
Import ListNotations.

Local Open Scope string_scope.
Local Open Scope list_scope.
Local Open Scope Z_scope.

(** ** Data model *)

(** [type FilterType = 'none' | 'vintage' | 'sepia' | 'polaroid' | 'noir' | 'faded'] *)
Inductive FilterType : Type :=
  | none | vintage | sepia | polaroid | noir | faded.

Definition FilterType_eqb (a b : FilterType) : bool :=
  match a, b with
  | none, none | vintage, vintage | sepia, sepia
  | polaroid, polaroid | noir, noir | faded, faded => true
  | _, _ => false
  end.

(** An entry of the [filters] table. *)
Record FilterDescriptor : Type := mkFilter {
  name : FilterType;
  label : string;
  css : string
}.

Definition filters : list FilterDescriptor :=
  [ mkFilter none "Natural" "none";
    mkFilter vintage "70s Film" "sepia(0.3) contrast(1.1) saturate(1.3) brightness(1.05)";
    mkFilter sepia "Sepia" "sepia(0.8) contrast(1.1)";
    mkFilter polaroid "Polaroid" "contrast(1.1) brightness(1.1) saturate(1.2)";
    mkFilter noir "Noir" "grayscale(1) contrast(1.3) brightness(0.9)";
    mkFilter faded "Faded" "contrast(0.9) saturate(0.8) brightness(1.1)" ].

(** [interface Photo]: [timestamp] is the epoch-millisecond value of the
    [Date] object. *)
Record Photo : Type := mkPhoto {
  id : string;
  dataUrl : string;
  filter : FilterType;
  timestamp : Z
}.

(** ['user' | 'environment'] *)
Inductive FacingMode : Type := user | environment.

Definition FacingMode_eqb (a b : FacingMode) : bool :=
  match a, b with
  | user, user | environment, environment => true
  | _, _ => false
  end.

(** A [MediaStreamTrack] is named by a number; a [MediaStream] is the list
    its [getTracks()] returns. *)
Definition Track : Type := nat.

Record MediaStream : Type := mkStream {
  getTracks : list Track
}.

(** The [useState] cells of [App], in declaration order. *)
Record AppState : Type := mkApp {
  stream : option MediaStream;
  currentFilter : FilterType;
  photos : list Photo;
  isCapturing : bool;
  showGallery : bool;
  selectedPhoto : option Photo;
  facingMode : FacingMode;
  flashActive : bool;
  filmCount : Z;
  isLoading : bool
}.

(** The initial values passed to [useState]. *)
Definition initialState : AppState :=
  {| stream := None;
     currentFilter := vintage;
     photos := [];
     isCapturing := false;
     showGallery := false;
     selectedPhoto := None;
     facingMode := environment;
     flashActive := false;
     filmCount := 24;
     isLoading := true |}.

(** State setters, in the functional-update form [setX(prev => ...)]. *)
Definition setStream (v : option MediaStream) (s : AppState) : AppState :=
  mkApp v (currentFilter s) (photos s) (isCapturing s) (showGallery s)
        (selectedPhoto s) (facingMode s) (flashActive s) (filmCount s) (isLoading s).

Definition setCurrentFilter (v : FilterType) (s : AppState) : AppState :=
  mkApp (stream s) v (photos s) (isCapturing s) (showGallery s)
        (selectedPhoto s) (facingMode s) (flashActive s) (filmCount s) (isLoading s).

Definition setPhotos (f : list Photo -> list Photo) (s : AppState) : AppState :=
  mkApp (stream s) (currentFilter s) (f (photos s)) (isCapturing s) (showGallery s)
        (selectedPhoto s) (facingMode s) (flashActive s) (filmCount s) (isLoading s).

Definition setIsCapturing (v : bool) (s : AppState) : AppState :=
  mkApp (stream s) (currentFilter s) (photos s) v (showGallery s)
        (selectedPhoto s) (facingMode s) (flashActive s) (filmCount s) (isLoading s).

Definition setSelectedPhoto (v : option Photo) (s : AppState) : AppState :=
  mkApp (stream s) (currentFilter s) (photos s) (isCapturing s) (showGallery s)
        v (facingMode s) (flashActive s) (filmCount s) (isLoading s).

Definition setFacingMode (f : FacingMode -> FacingMode) (s : AppState) : AppState :=
  mkApp (stream s) (currentFilter s) (photos s) (isCapturing s) (showGallery s)
        (selectedPhoto s) (f (facingMode s)) (flashActive s) (filmCount s) (isLoading s).

Definition setFlashActive (v : bool) (s : AppState) : AppState :=
  mkApp (stream s) (currentFilter s) (photos s) (isCapturing s) (showGallery s)
        (selectedPhoto s) (facingMode s) v (filmCount s) (isLoading s).

Definition setFilmCount (f : Z -> Z) (s : AppState) : AppState :=
  mkApp (stream s) (currentFilter s) (photos s) (isCapturing s) (showGallery s)
        (selectedPhoto s) (facingMode s) (flashActive s) (f (filmCount s)) (isLoading s).

Definition setIsLoading (v : bool) (s : AppState) : AppState :=
  mkApp (stream s) (currentFilter s) (photos s) (isCapturing s) (showGallery s)
        (selectedPhoto s) (facingMode s) (flashActive s) (filmCount s) v.

(** ** The drawing surface *)

(** An RGBA sample. *)
Record Pixel : Type := rgba { red : Z; green : Z; blue : Z; alpha : Z }.

Definition transparent : Pixel := rgba 0 0 0 0.

(** The [<video>] element: the stream attached to it, the intrinsic size of
    the current frame and the frame itself, addressed by column and row. *)
Record HTMLVideoElement : Type := mkVideo {
  srcObject : option MediaStream;
  videoWidth : nat;
  videoHeight : nat;
  frame : nat -> nat -> Pixel
}.

(** The state of a 2D context this program touches: the current
    transformation, which here is only ever a scaling and a translation
    along the axes (device x = [sx] * x + [tx]), and the [filter] string. *)
Record Transform : Type := mkTransform { sx : Z; sy : Z; tx : Z; ty : Z }.

Definition identityTransform : Transform := mkTransform 1 1 0 0.

(** The hidden [<canvas>]: [has2d] tells whether [getContext('2d')] yields a
    context, [bitmap] is addressed by column and row. *)
Record HTMLCanvasElement : Type := mkCanvas {
  has2d : bool;
  width : nat;
  height : nat;
  ctxFilter : string;
  ctxTransform : Transform;
  bitmap : nat -> nat -> Pixel
}.

Module Canvas2D.

(** Assigning [canvas.width] / [canvas.height] clears the bitmap and
    resets the context to its default state. *)
Definition setSize (w h : nat) (c : HTMLCanvasElement) : HTMLCanvasElement :=
  mkCanvas (has2d c) w h "none" identityTransform (fun _ _ => transparent).

Definition setFilter (f : string) (c : HTMLCanvasElement) : HTMLCanvasElement :=
  mkCanvas (has2d c) (width c) (height c) f (ctxTransform c) (bitmap c).

(** [ctx.translate(dx, dy)]: the current transformation is composed with
    the translation on the right. *)
Definition translate (dx dy : Z) (c : HTMLCanvasElement) : HTMLCanvasElement :=
  let t := ctxTransform c in
  mkCanvas (has2d c) (width c) (height c) (ctxFilter c)
           (mkTransform (sx t) (sy t) (tx t + sx t * dx) (ty t + sy t * dy))
           (bitmap c).

(** [ctx.scale(kx, ky)] *)
Definition scale (kx ky : Z) (c : HTMLCanvasElement) : HTMLCanvasElement :=
  let t := ctxTransform c in
  mkCanvas (has2d c) (width c) (height c) (ctxFilter c)
           (mkTransform (sx t * kx) (sy t * ky) (tx t) (ty t))
           (bitmap c).

(** The source coordinate whose unit cell covers the centre of device
    cell [X] under device = [s] * source + [t]: the floor of
    (X + 1/2 - t) / s. *)
Definition sample (s t : Z) (X : nat) : Z :=
  (2 * Z.of_nat X + 1 - 2 * t) / (2 * s).

Definition inFrame (i : Z) (n : nat) : bool :=
  (0 <=? i) && (i <? Z.of_nat n).

(** The bitmap as rows of samples, top row first. *)
Definition rows (c : HTMLCanvasElement) : list (list Pixel) :=
  map (fun y => map (fun x => bitmap c x y) (seq 0 (width c))) (seq 0 (height c)).

(** The frame of a video as rows of samples. *)
Definition frameRows (v : HTMLVideoElement) : list (list Pixel) :=
  map (fun y => map (fun x => frame v x y) (seq 0 (videoWidth v))) (seq 0 (videoHeight v)).

End Canvas2D.

(** What the browser supplies: how a CSS filter string acts on a sample
    (every function in the catalog is a per-sample colour adjustment), and
    the encoder behind [canvas.toDataURL(type, quality)]. *)
Record Browser : Type := mkBrowser {
  applyFilter : string -> Pixel -> Pixel;
  encodeImage : string -> Q -> list (list Pixel) -> string
}.

(** ** Timers and the component with its refs *)

(** The two callbacks handed to [setTimeout]. *)
Inductive TimerAction : Type :=
  | ClearFlash       (* () => setFlashActive(false) *)
  | ClearCapturing.  (* () => setIsCapturing(false) *)

(** The component: its state, [videoRef.current], [canvasRef.current], and
    the scheduled callbacks with their delays in milliseconds. *)
Record Sys : Type := mkSys {
  app : AppState;
  videoRef : option HTMLVideoElement;
  canvasRef : option HTMLCanvasElement;
  timers : list (Z * TimerAction)
}.

(** [Number.prototype.toString] on an integer: decimal digits, with a
    leading minus sign below zero. *)
Definition toString (z : Z) : string :=
  NilEmpty.string_of_int (Z.to_int z).

(** ** Handlers *)

Section Handlers.

Variable B : Browser.

(** [ctx.drawImage(video, 0, 0)] under the current transformation and
    filter: a device cell whose centre falls into the frame takes the
    filtered sample, every other cell keeps what it had. *)
Definition drawImage (v : HTMLVideoElement) (c : HTMLCanvasElement)
  : HTMLCanvasElement :=
  let t := ctxTransform c in
  mkCanvas (has2d c) (width c) (height c) (ctxFilter c) t
    (fun X Y =>
       let i := Canvas2D.sample (sx t) (tx t) X in
       let j := Canvas2D.sample (sy t) (ty t) Y in
       if Canvas2D.inFrame i (videoWidth v) && Canvas2D.inFrame j (videoHeight v)
       then applyFilter B (ctxFilter c) (frame v (Z.to_nat i) (Z.to_nat j))
       else bitmap c X Y).

(** [canvas.toDataURL(type, quality)] *)
Definition toDataURL (type : string) (quality : Q) (c : HTMLCanvasElement) : string :=
  encodeImage B type quality (Canvas2D.rows c).

(** [filterObj?.css || 'none']: the empty string is falsy. *)
Definition cssOrNone (o : option FilterDescriptor) : string :=
  match o with
  | Some f => if String.eqb (css f) "" then "none" else css f
  | None => "none"
  end.

(** The canvas as [capturePhoto] leaves it after [drawImage]. *)
Definition renderFrame (cf : FilterType) (fm : FacingMode)
    (video : HTMLVideoElement) (canvas : HTMLCanvasElement) : HTMLCanvasElement :=
  let canvas1 := Canvas2D.setSize (videoWidth video) (videoHeight video) canvas in
  let filterObj := find (fun f => FilterType_eqb (name f) cf) filters in
  let canvas2 := Canvas2D.setFilter (cssOrNone filterObj) canvas1 in
  let canvas3 :=
    if FacingMode_eqb fm user
    then Canvas2D.scale (-1) 1 (Canvas2D.translate (Z.of_nat (width canvas2)) 0 canvas2)
    else canvas2 in
  drawImage video canvas3.

(** [capturePhoto], with the values [Date.now()] and [new Date()] read. *)
Definition capturePhoto (dateNow newDate : Z) (w : Sys) : Sys :=
  match videoRef w, canvasRef w with
  | Some video, Some canvas =>
    if filmCount (app w) <=? 0 then w else
    let a1 := setFlashActive true (setIsCapturing true (app w)) in
    let t1 := timers w ++ [(150, ClearFlash)] in
    if negb (has2d canvas) then mkSys a1 (videoRef w) (canvasRef w) t1 else
    let drawn := renderFrame (currentFilter (app w)) (facingMode (app w)) video canvas in
    let url := toDataURL "image/jpeg" (9 # 10) drawn in
    let newPhoto :=
      {| id := toString dateNow;
         dataUrl := url;
         filter := currentFilter (app w);
         timestamp := newDate |} in
    let a2 := setFilmCount (fun prev => prev - 1)
                (setPhotos (fun prev => newPhoto :: prev) a1) in
    mkSys a2 (videoRef w) (Some drawn) (t1 ++ [(300, ClearCapturing)])
  | _, _ => w
  end.

(** The shutter button: [onClick={capturePhoto}] with
    [disabled={isCapturing || filmCount <= 0 || isLoading}]; a disabled
    button dispatches no click. *)
Definition shutterDisabled (s : AppState) : bool :=
  isCapturing s || (filmCount s <=? 0) || isLoading s.

Definition shutterClick (dateNow newDate : Z) (w : Sys) : Sys :=
  if shutterDisabled (app w) then w else capturePhoto dateNow newDate w.

End Handlers.

(** [switchCamera] *)
Definition switchCamera (s : AppState) : AppState :=
  setFacingMode (fun prev => if FacingMode_eqb prev user then environment else user) s.

(** [deletePhoto] *)
Definition deletePhoto (photoId : string) (s : AppState) : AppState :=
  let s1 := setPhotos (fun prev => List.filter (fun p => negb (String.eqb (id p) photoId)) prev) s in
  let s2 := setSelectedPhoto None s1 in
  setFilmCount (fun prev => Z.min (prev + 1) 24) s2.

(** A handler of the state alone, run inside the component. *)
Definition onApp (h : AppState -> AppState) (w : Sys) : Sys :=
  mkSys (h (app w)) (videoRef w) (canvasRef w) (timers w).

(** A scheduled callback fires. *)
Definition runTimer (a : TimerAction) (s : AppState) : AppState :=
  match a with
  | ClearFlash => setFlashActive false s
  | ClearCapturing => setIsCapturing false s
  end.

(** ** The camera session as a transition system

    [startCamera] is asynchronous: it runs to its [await], and resumes when
    the promise of [getUserMedia] settles.  The machine keeps the calls that
    are still outstanding, every stream the platform has handed out, and
    every call of [track.stop()].  A closure sees the state of the render
    that created it: the effect of [useEffect(..., [facingMode])] and its
    cleanup run with the [stream] of the render in which [facingMode]
    changed. *)

Record Machine : Type := mkMachine {
  sys : Sys;
  mounted : bool;
  effectDeps : option FacingMode;        (* [facingMode] at the last run of the effect *)
  cleanupStream : option MediaStream;    (* [stream] as the pending cleanup closure sees it *)
  pending : list FacingMode;             (* outstanding [getUserMedia] calls, oldest first *)
  opened : list MediaStream;             (* streams handed out, oldest first *)
  stopCalls : list Track;                (* calls of [track.stop()], oldest first *)
  nextTrack : Track;
  errorLog : nat                         (* calls of [console.error] *)
}.

Definition withSys (w : Sys) (m : Machine) : Machine :=
  mkMachine w (mounted m) (effectDeps m) (cleanupStream m) (pending m)
            (opened m) (stopCalls m) (nextTrack m) (errorLog m).

Definition init : Machine :=
  mkMachine (mkSys initialState None None []) false None None [] [] [] 0%nat 0%nat.

(** [if (stream) { stream.getTracks().forEach(track => track.stop()); }] *)
Definition stopStream (o : option MediaStream) (calls : list Track) : list Track :=
  match o with
  | Some s => calls ++ getTracks s
  | None => calls
  end.

Definition trackStopped (calls : list Track) (t : Track) : bool :=
  existsb (Nat.eqb t) calls.

(** A stream is active while one of its tracks has not been stopped. *)
Definition active (calls : list Track) (s : MediaStream) : bool :=
  existsb (fun t => negb (trackStopped calls t)) (getTracks s).

(** The handles that are open, and those that have been released. *)
Definition activeStreams (m : Machine) : list MediaStream :=
  List.filter (active (stopCalls m)) (opened m).

Definition releasedStreams (m : Machine) : list MediaStream :=
  List.filter (fun s => negb (active (stopCalls m) s)) (opened m).

Definition acquireCount (m : Machine) : nat := List.length (opened m).
Definition releaseCount (m : Machine) : nat := List.length (releasedStreams m).

(** A [<video>] and a [<canvas>] as the DOM creates them. *)
Definition freshVideo : HTMLVideoElement :=
  mkVideo None 0 0 (fun _ _ => transparent).

Definition freshCanvas : HTMLCanvasElement :=
  mkCanvas true 300 150 "none" identityTransform (fun _ _ => transparent).

(** The DOM after a render: the [<video>] exists only while [isLoading] is
    false, the [<canvas>] always. *)
Definition commitDom (w : Sys) : Sys :=
  mkSys (app w)
        (if isLoading (app w) then None
         else match videoRef w with Some v => Some v | None => Some freshVideo end)
        (match canvasRef w with Some c => Some c | None => Some freshCanvas end)
        (timers w).

(** [startCamera] up to its [await]. *)
Definition startCamera (m : Machine) : Machine :=
  let s := app (sys m) in
  mkMachine (onApp (setIsLoading true) (sys m)) (mounted m) (effectDeps m)
            (cleanupStream m)
            (pending m ++ [facingMode s])
            (opened m)
            (stopStream (stream s) (stopCalls m))
            (nextTrack m) (errorLog m).

(** [startCamera] from its [await] on: the promise is fulfilled with a new
    stream of one video track, or rejected. *)
Definition resumeStartCamera (granted : bool) (m : Machine) : Machine :=
  if granted then
    let newStream := mkStream [nextTrack m] in
    let w := sys m in
    let video' :=
      match videoRef w with
      | Some v => Some (mkVideo (Some newStream) (videoWidth v) (videoHeight v) (frame v))
      | None => None
      end in
    let a := if mounted m then setIsLoading false (setStream (Some newStream) (app w))
             else app w in
    mkMachine (mkSys a video' (canvasRef w) (timers w)) (mounted m) (effectDeps m)
              (cleanupStream m) (pending m)
              (opened m ++ [newStream]) (stopCalls m) (S (nextTrack m)) (errorLog m)
  else
    let w := sys m in
    let a := if mounted m then setIsLoading false (app w) else app w in
    mkMachine (mkSys a (videoRef w) (canvasRef w) (timers w)) (mounted m) (effectDeps m)
              (cleanupStream m) (pending m)
              (opened m) (stopCalls m) (nextTrack m) (S (errorLog m)).

(** [useEffect(() => { startCamera(); return cleanup }, [facingMode])] *)
Definition runEffect (m : Machine) : Machine :=
  let fm := facingMode (app (sys m)) in
  let unchanged :=
    match effectDeps m with
    | Some d => FacingMode_eqb d fm
    | None => false
    end in
  if unchanged then m else
  let thisStream := stream (app (sys m)) in
  let m1 := mkMachine (sys m) (mounted m) (effectDeps m) (cleanupStream m) (pending m)
                      (opened m) (stopStream (cleanupStream m) (stopCalls m))
                      (nextTrack m) (errorLog m) in
  let m2 := startCamera m1 in
  mkMachine (sys m2) (mounted m2) (Some fm) thisStream (pending m2)
            (opened m2) (stopCalls m2) (nextTrack m2) (errorLog m2).

(** A render is committed: the DOM is brought up to date, the effect runs
    if its dependency changed, and the state it set is rendered in turn. *)
Definition commit (m : Machine) : Machine :=
  let m1 := withSys (commitDom (sys m)) m in
  let m2 := runEffect m1 in
  withSys (commitDom (sys m2)) m2.

(** The component goes away: the pending cleanup runs. *)
Definition unmount (m : Machine) : Machine :=
  mkMachine (mkSys (app (sys m)) None None (timers (sys m))) false (effectDeps m) None
            (pending m) (opened m)
            (stopStream (cleanupStream m) (stopCalls m))
            (nextTrack m) (errorLog m).

Fixpoint removeNth {A : Type} (n : nat) (l : list A) : list A :=
  match n, l with
  | _, [] => []
  | O, _ :: l' => l'
  | S n', x :: l' => x :: removeNth n' l'
  end.

Inductive Event : Type :=
  | Mount
  | ClickSwitch
  | ClickShutter (dateNow newDate : Z)
  | ClickFilter (f : FilterType)
  | TimerFires (n : nat)                 (* the n-th scheduled callback runs *)
  | Settles (n : nat) (granted : bool)   (* the n-th outstanding request settles *)
  | Unmount.

Section Session.

Variable B : Browser.

Definition step (m : Machine) (e : Event) : Machine :=
  match e with
  | Mount =>
      if mounted m then m
      else commit (mkMachine (sys m) true (effectDeps m) (cleanupStream m) (pending m)
                             (opened m) (stopCalls m) (nextTrack m) (errorLog m))
  | Settles n granted =>
      match nth_error (pending m) n with
      | Some _ =>
          let m1 := mkMachine (sys m) (mounted m) (effectDeps m) (cleanupStream m)
                              (removeNth n (pending m))
                              (opened m) (stopCalls m) (nextTrack m) (errorLog m) in
          let m2 := resumeStartCamera granted m1 in
          if mounted m then commit m2 else m2
      | None => m
      end
  | _ =>
      if negb (mounted m) then m else
      match e with
      | ClickSwitch => commit (withSys (onApp switchCamera (sys m)) m)
      | ClickShutter d1 d2 => commit (withSys (shutterClick B d1 d2 (sys m)) m)
      | ClickFilter f => commit (withSys (onApp (setCurrentFilter f) (sys m)) m)
      | TimerFires n =>
          match nth_error (timers (sys m)) n with
          | Some (_, a) =>
              commit (withSys (mkSys (runTimer a (app (sys m)))
                                     (videoRef (sys m)) (canvasRef (sys m))
                                     (removeNth n (timers (sys m)))) m)
          | None => m
          end
      | Unmount => unmount m
      | _ => m
      end
  end.

Definition run (m : Machine) (es : list Event) : Machine :=
  fold_left step es m.

End Session.

(** The browser used in the worked examples: filters leave a sample as it
    is, and the encoder only reports the size of what it was given. *)
Definition demoBrowser : Browser :=
  mkBrowser (fun _ p => p)
            (fun type _ rs =>
               ("data:" ++ type ++ ";rows=" ++ toString (Z.of_nat (List.length rs)))%string).

(** A two by two frame with four different samples. *)
Definition demoVideo : HTMLVideoElement :=
  mkVideo None 2 2
          (fun x y => rgba (Z.of_nat x) (Z.of_nat y) 0 255).

Definition demoSys : Sys :=
  mkSys (setIsLoading false initialState) (Some demoVideo) (Some freshCanvas) [].

(** ** Sequences of gallery operations *)

(** What can happen to the gallery: a call of [capturePhoto] with the two
    readings of the clock, or a call of [deletePhoto]. *)
Inductive Action : Type :=
  | Capture (dateNow newDate : Z)
  | Delete (photoId : string).

Definition act (B : Browser) (w : Sys) (a : Action) : Sys :=
  match a with
  | Capture d e => capturePhoto B d e w
  | Delete pid => onApp (deletePhoto pid) w
  end.

(** The values [Date.now()] returned, in the order of the calls. *)
Definition readings (l : list Action) : list Z :=
  flat_map (fun a => match a with Capture d _ => [d] | Delete _ => [] end) l.

(** Any two different Photos of a gallery have different identifiers. *)
Definition uniqueIds (g : list Photo) : Prop :=
  forall p q, In p g -> In q g -> p <> q -> id p <> id q.

(** Every state a run of the session passes through, the first one
    included. *)
Fixpoint states (B : Browser) (m : Machine) (es : list Event) : list Machine :=
  m :: match es with
       | [] => []
       | e :: es' => states B (step B m e) es'
       end.

(** Mount, wait for the camera, then switch [n] times, each time waiting
    for the camera before the next switch. *)
Definition settledSwitches (n : nat) : list Event :=
  Mount :: Settles 0 true :: List.concat (repeat [ClickSwitch; Settles 0 true] n).

(** Exactly one stream is open at every moment of a run, from the moment
    the first one has been handed out (the first two events are the mount
    and the first grant). *)
Definition exactlyOneOutstanding (B : Browser) (es : list Event) : Prop :=
  forall k, (2 <= k <= List.length es)%nat ->
    List.length (activeStreams (run B init (firstn k es))) = 1%nat.

(** The session at rest: the camera has been granted, nothing is
    outstanding, the state holds the stream of the one track [t], and the
    streams handed out before it, [old], have all been stopped. *)
Record Settled (m : Machine) (old : list MediaStream) (t : Track) : Prop := {
  settled_mounted : mounted m = true;
  settled_pending : pending m = [];
  settled_loaded : isLoading (app (sys m)) = false;
  settled_deps : effectDeps m = Some (facingMode (app (sys m)));
  settled_stream : stream (app (sys m)) = Some (mkStream [t]);
  settled_opened : opened m = old ++ [mkStream [t]];
  settled_live : trackStopped (stopCalls m) t = false;
  settled_old : Forall (fun s => active (stopCalls m) s = false) old;
  settled_calls : Forall (fun x => (x < nextTrack m)%nat) (stopCalls m);
  settled_cleanup :
    match cleanupStream m with
    | Some s => Forall (fun x => (x < nextTrack m)%nat) (getTracks s)
    | None => True
    end;
  settled_track : (t < nextTrack m)%nat
}.

(** ** The rest of the component *)

Definition setShowGallery (v : bool) (s : AppState) : AppState :=
  mkApp (stream s) (currentFilter s) (photos s) (isCapturing s) v
        (selectedPhoto s) (facingMode s) (flashActive s) (filmCount s) (isLoading s).

(** The anchor element [downloadPhoto] creates and clicks. *)
Record Anchor : Type := mkAnchor {
  href : string;
  download : string
}.

(** [downloadPhoto] *)
Definition downloadPhoto (photo : Photo) : Anchor :=
  mkAnchor (dataUrl photo)
           ("retrocam-" ++ toString (timestamp photo) ++ ".jpg")%string.

(** [k] characters taken from [pad] over and over, [cur] being what is
    left of the copy in progress. *)
Fixpoint padFill (k : nat) (pad cur : string) : string :=
  match k with
  | O => EmptyString
  | S k' =>
      match cur with
      | String ch rest => String ch (padFill k' pad rest)
      | EmptyString =>
          match pad with
          | String ch rest => String ch (padFill k' pad rest)
          | EmptyString => EmptyString
          end
      end
  end.

(** [String.prototype.padStart(targetLength, padString)] *)
Definition padStart (targetLength : nat) (padString : string) (s : string) : string :=
  if (targetLength <=? String.length s)%nat then s
  else (padFill (targetLength - String.length s) padString padString ++ s)%string.

(** The film counter: [filmCount.toString().padStart(2, '0')] *)
Definition filmDisplay (s : AppState) : string :=
  padStart 2 "0" (toString (filmCount s)).

(** [currentFilterObj] *)
Definition currentFilterObj (s : AppState) : option FilterDescriptor :=
  find (fun f => FilterType_eqb (name f) (currentFilter s)) filters.

(** The viewfinder: [style={{ filter: currentFilterObj?.css }}] and the
    class [mirrored] when [facingMode === 'user']. *)
Definition previewFilter (s : AppState) : option string :=
  option_map css (currentFilterObj s).

Definition previewMirrored (s : AppState) : bool :=
  FacingMode_eqb (facingMode s) user.

(** The label shown in the photo modal:
    [filters.find(f => f.name === selectedPhoto.filter)?.label] *)
Definition photoLabel (p : Photo) : option string :=
  option_map label (find (fun f => FilterType_eqb (name f) (filter p)) filters).

(** What the user can do besides the events of the camera session: the
    controls of the gallery and of the photo modal. *)
Inductive Input : Type :=
  | Session (e : Event)
  | GalleryButton          (* setShowGallery(true), disabled while the gallery is empty *)
  | CloseGallery           (* backdrop or close button: setShowGallery(false) *)
  | GalleryItem (n : nat)  (* the n-th item of photos.map: setSelectedPhoto(photo) *)
  | ClosePhoto             (* backdrop of the photo modal: setSelectedPhoto(null) *)
  | SaveButton             (* downloadPhoto(selectedPhoto) *)
  | DeleteButton.          (* deletePhoto(selectedPhoto.id) *)

(** The handler behind a control; a control that is not rendered, or is
    disabled, does nothing. *)
Definition galleryClick (i : Input) (s : AppState) : AppState :=
  match i with
  | Session _ => s
  | GalleryButton =>
      if (List.length (photos s) =? 0)%nat then s else setShowGallery true s
  | CloseGallery =>
      if showGallery s then setShowGallery false s else s
  | GalleryItem n =>
      if showGallery s then
        match nth_error (photos s) n with
        | Some photo => setSelectedPhoto (Some photo) s
        | None => s
        end
      else s
  | ClosePhoto =>
      match selectedPhoto s with
      | Some _ => setSelectedPhoto None s
      | None => s
      end
  | SaveButton => s
  | DeleteButton =>
      match selectedPhoto s with
      | Some photo => deletePhoto (id photo) s
      | None => s
      end
  end.

(** What [SaveButton] hands to the browser. *)
Definition saved (s : AppState) : option Anchor :=
  option_map downloadPhoto (selectedPhoto s).

(** One input to the whole component. *)
Definition interact (B : Browser) (m : Machine) (i : Input) : Machine :=
  match i with
  | Session e => step B m e
  | _ =>
      if mounted m then commit (withSys (onApp (galleryClick i) (sys m)) m)
      else m
  end.

(** The values [Date.now()] is given at the presses of the shutter. *)
Definition inputReadings (l : list Input) : list Z :=
  flat_map (fun i => match i with
                     | Session (ClickShutter d _) => [d]
                     | _ => []
                     end) l.

(** What the gallery and the counter keep to. *)
Record GalleryInv (s : AppState) : Prop := {
  inv_film_low : 0 <= filmCount s;
  inv_film_high : filmCount s <= 24;
  inv_sum : filmCount s + Z.of_nat (List.length (photos s)) <= 24;
  inv_selected : forall p, selectedPhoto s = Some p -> In p (photos s)
}.

(** The part of the state the gallery lives in. *)
Definition galleryView (s : AppState) : list Photo * Z * option Photo :=
  (photos s, filmCount s, selectedPhoto s).

(** The gallery while the clock advances: its identifiers are the strings
    of the strictly decreasing readings [zs], and Photos and exposures add
    up to 24. *)
Record Conserved (s : AppState) (zs : list Z) : Prop := {
  cons_ids : map id (photos s) = map toString zs;
  cons_sorted : StronglySorted Z.gt zs;
  cons_sum : filmCount s + Z.of_nat (List.length (photos s)) = 24;
  cons_selected : forall p, selectedPhoto s = Some p -> In p (photos s)
}.

(** The facing mode after [n] switches. *)
Fixpoint facingAfter (n : nat) : FacingMode :=
  match n with
  | O => environment
  | S k => if FacingMode_eqb (facingAfter k) user then environment else user
  end.

(** A track that is open and that neither the state nor the pending
    cleanup can reach. *)
Record Unreferenced (t : Track) (m : Machine) : Prop := {
  unref_open : trackStopped (stopCalls m) t = false;
  unref_known : (t < nextTrack m)%nat;
  unref_state : forall s, stream (app (sys m)) = Some s -> ~ In t (getTracks s);
  unref_cleanup : forall s, cleanupStream m = Some s -> ~ In t (getTracks s)
}.

(** * Properties *)

(** ** Capture *)

Lemma has2d_renderFrame (B : Browser) cf fm v c :
  has2d (renderFrame B cf fm v c) = has2d c.
Proof. unfold renderFrame. destruct fm; reflexivity. Qed.

Lemma width_renderFrame (B : Browser) cf fm v c :
  width (renderFrame B cf fm v c) = videoWidth v /\
  height (renderFrame B cf fm v c) = videoHeight v.
Proof. unfold renderFrame. destruct fm; split; reflexivity. Qed.

(** The state a capture leaves when nothing stops it. *)
Lemma capturePhoto_success (B : Browser) d e w v c :
  videoRef w = Some v -> canvasRef w = Some c -> has2d c = true ->
  0 < filmCount (app w) ->
  capturePhoto B d e w =
    let drawn := renderFrame B (currentFilter (app w)) (facingMode (app w)) v c in
    let newPhoto := mkPhoto (toString d) (toDataURL B "image/jpeg" (9 # 10) drawn)
                            (currentFilter (app w)) e in
    mkSys (setFilmCount (fun prev => prev - 1)
             (setPhotos (fun prev => newPhoto :: prev)
                (setFlashActive true (setIsCapturing true (app w)))))
          (Some v) (Some drawn)
          ((timers w ++ [(150, ClearFlash)]) ++ [(300, ClearCapturing)]).
Proof.
  intros Hv Hc H2d Hfilm. unfold capturePhoto.
  rewrite Hv, Hc, H2d.
  destruct (Z.leb_spec (filmCount (app w)) 0) as [Hle | _]; [lia | reflexivity].
Qed.

(** A call that takes no photo leaves the gallery and the counter alone. *)
Lemma capturePhoto_gallery (B : Browser) d e w :
  (photos (app (capturePhoto B d e w)) = photos (app w) /\
   filmCount (app (capturePhoto B d e w)) = filmCount (app w)) \/
  (exists url,
     photos (app (capturePhoto B d e w)) =
       mkPhoto (toString d) url (currentFilter (app w)) e :: photos (app w) /\
     filmCount (app (capturePhoto B d e w)) = filmCount (app w) - 1).
Proof.
  unfold capturePhoto.
  destruct (videoRef w) as [v|]; [|left; split; reflexivity].
  destruct (canvasRef w) as [c|]; [|left; split; reflexivity].
  destruct (filmCount (app w) <=? 0); [left; split; reflexivity|].
  destruct (has2d c); simpl.
  - right. eexists. split; reflexivity.
  - left. split; reflexivity.
Qed.

(** C1. With no exposure left ([filmCount = 0]) [capturePhoto] returns the
    component as it found it: the gallery has the same length, the counter
    the same value, and no Photo was added. *)
Theorem C1_capture_without_film_is_noop (B : Browser) (d e : Z) (w : Sys) :
  filmCount (app w) = 0 ->
  capturePhoto B d e w = w /\
  List.length (photos (app (capturePhoto B d e w))) = List.length (photos (app w)) /\
  filmCount (app (capturePhoto B d e w)) = 0 /\
  photos (app (capturePhoto B d e w)) = photos (app w).
Proof.
  intros H0.
  assert (Heq : capturePhoto B d e w = w).
  { unfold capturePhoto.
    destruct (videoRef w); [|reflexivity].
    destruct (canvasRef w); [|reflexivity].
    rewrite H0. reflexivity. }
  rewrite Heq. repeat split; auto.
Qed.

Lemma C1_witness :
  let w := onApp (setFilmCount (fun _ => 0)) demoSys in
  filmCount (app w) = 0 /\
  capturePhoto demoBrowser 1000 1000 w = w.
Proof.
  split; [reflexivity|].
  apply (C1_capture_without_film_is_noop demoBrowser 1000 1000
           (onApp (setFilmCount (fun _ => 0)) demoSys)).
  reflexivity.
Defined.

(** ** Deletion *)

Lemma deletePhoto_photos pid s :
  photos (deletePhoto pid s) =
    List.filter (fun p => negb (String.eqb (id p) pid)) (photos s).
Proof. reflexivity. Qed.

Lemma deletePhoto_filmCount pid s :
  filmCount (deletePhoto pid s) = Z.min (filmCount s + 1) 24.
Proof. reflexivity. Qed.

Lemma In_deletePhoto pid s q :
  In q (photos (deletePhoto pid s)) <-> In q (photos s) /\ id q <> pid.
Proof.
  rewrite deletePhoto_photos, filter_In.
  destruct (String.eqb_spec (id q) pid) as [E | N]; simpl; intuition congruence.
Qed.

Lemma filter_length_lt {A : Type} (f : A -> bool) (l : list A) (x : A) :
  In x l -> f x = false -> (List.length (List.filter f l) < List.length l)%nat.
Proof.
  induction l as [|a l IH]; simpl; [tauto|].
  intros [-> | Hin] Hf.
  - rewrite Hf. pose proof (filter_length_le f l). lia.
  - specialize (IH Hin Hf). destruct (f a); simpl; lia.
Qed.

(** Three captures in a row, each one going through. *)
Lemma three_captures (B : Browser) w v c d1 e1 d2 e2 d3 e3 :
  videoRef w = Some v -> canvasRef w = Some c -> has2d c = true ->
  3 <= filmCount (app w) ->
  let w1 := capturePhoto B d1 e1 w in
  let w2 := capturePhoto B d2 e2 w1 in
  let w3 := capturePhoto B d3 e3 w2 in
  exists u1 u2 u3,
    photos (app w1) = mkPhoto (toString d1) u1 (currentFilter (app w)) e1 :: photos (app w) /\
    photos (app w2) = mkPhoto (toString d2) u2 (currentFilter (app w)) e2 :: photos (app w1) /\
    photos (app w3) = mkPhoto (toString d3) u3 (currentFilter (app w)) e3 :: photos (app w2) /\
    filmCount (app w3) = filmCount (app w) - 3.
Proof.
  intros Hv Hc H2d Hfilm w1 w2 w3.
  pose proof (capturePhoto_success B d1 e1 w v c Hv Hc H2d ltac:(lia)) as E1.
  fold w1 in E1. cbv zeta in E1.
  set (c1 := renderFrame B (currentFilter (app w)) (facingMode (app w)) v c) in E1.
  assert (Hv1 : videoRef w1 = Some v) by (rewrite E1; reflexivity).
  assert (Hc1 : canvasRef w1 = Some c1) by (rewrite E1; reflexivity).
  assert (H2d1 : has2d c1 = true) by (unfold c1; rewrite has2d_renderFrame; exact H2d).
  assert (Hf1 : filmCount (app w1) = filmCount (app w) - 1) by (rewrite E1; reflexivity).
  assert (Hcf1 : currentFilter (app w1) = currentFilter (app w)) by (rewrite E1; reflexivity).
  pose proof (capturePhoto_success B d2 e2 w1 v c1 Hv1 Hc1 H2d1 ltac:(lia)) as E2.
  fold w2 in E2. cbv zeta in E2.
  set (c2 := renderFrame B (currentFilter (app w1)) (facingMode (app w1)) v c1) in E2.
  assert (Hv2 : videoRef w2 = Some v) by (rewrite E2; reflexivity).
  assert (Hc2 : canvasRef w2 = Some c2) by (rewrite E2; reflexivity).
  assert (H2d2 : has2d c2 = true) by (unfold c2; rewrite has2d_renderFrame; exact H2d1).
  assert (Hf2 : filmCount (app w2) = filmCount (app w1) - 1) by (rewrite E2; reflexivity).
  assert (Hcf2 : currentFilter (app w2) = currentFilter (app w1)) by (rewrite E2; reflexivity).
  pose proof (capturePhoto_success B d3 e3 w2 v c2 Hv2 Hc2 H2d2 ltac:(lia)) as E3.
  fold w3 in E3. cbv zeta in E3.
  do 3 eexists.
  split; [rewrite E1; reflexivity|].
  split; [rewrite E2, Hcf1; reflexivity|].
  split; [rewrite E3, Hcf2, Hcf1; reflexivity|].
  rewrite E3. simpl. lia.
Qed.

(** C2. Deleting a Photo that is in the gallery removes it (nothing with
    that identifier remains, every other Photo stays, the gallery gets
    shorter) and sets the counter to min(counter + 1, 24): one more, never
    above 24.  From 24 exposures and an empty gallery, three captures and
    one deletion leave 22; deleting the other two leaves 24 and an empty
    gallery. *)
Theorem C2_delete_restores_one_exposure_capped :
  (forall (s : AppState) (p : Photo),
      In p (photos s) ->
      let s' := deletePhoto (id p) s in
      ~ In p (photos s') /\
      (forall q, In q (photos s') <-> In q (photos s) /\ id q <> id p) /\
      (List.length (photos s') < List.length (photos s))%nat /\
      filmCount s' = Z.min (filmCount s + 1) 24 /\
      (filmCount s < 24 -> filmCount s' = filmCount s + 1) /\
      (filmCount s <= 24 -> filmCount s' <= 24)) /\
  (forall (B : Browser) w v c d1 e1 d2 e2 d3 e3,
      videoRef w = Some v -> canvasRef w = Some c -> has2d c = true ->
      filmCount (app w) = 24 -> photos (app w) = [] ->
      let w3 := capturePhoto B d3 e3 (capturePhoto B d2 e2 (capturePhoto B d1 e1 w)) in
      let s4 := deletePhoto (toString d1) (app w3) in
      let s6 := deletePhoto (toString d3) (deletePhoto (toString d2) s4) in
      List.length (photos (app w3)) = 3%nat /\
      filmCount (app w3) = 21 /\
      filmCount s4 = 22 /\
      filmCount s6 = 24 /\
      photos s6 = []).
Proof.
  split.
  - intros s p Hin s'. subst s'.
    split; [|split; [|split; [|split; [|split]]]].
    + intros Hp. apply In_deletePhoto in Hp. tauto.
    + intros q. apply In_deletePhoto.
    + rewrite deletePhoto_photos.
      apply filter_length_lt with (x := p); [exact Hin|].
      rewrite String.eqb_refl. reflexivity.
    + apply deletePhoto_filmCount.
    + rewrite deletePhoto_filmCount. lia.
    + rewrite deletePhoto_filmCount. lia.
  - intros B w v c d1 e1 d2 e2 d3 e3 Hv Hc H2d Hfilm Hph w3 s4 s6.
    destruct (three_captures B w v c d1 e1 d2 e2 d3 e3 Hv Hc H2d ltac:(lia))
      as (u1 & u2 & u3 & P1 & P2 & P3 & F3).
    fold w3 in P3, F3.
    rewrite P2, P1, Hph in P3.
    assert (Hs6 : forall q, ~ In q (photos s6)).
    { intros q Hq. unfold s6, s4 in Hq.
      apply In_deletePhoto in Hq. destruct Hq as [Hq N3].
      apply In_deletePhoto in Hq. destruct Hq as [Hq N2].
      apply In_deletePhoto in Hq. destruct Hq as [Hq N1].
      rewrite P3 in Hq. simpl in Hq.
      destruct Hq as [<- | [<- | [<- | []]]]; simpl in *; congruence. }
    repeat split.
    + rewrite P3. reflexivity.
    + lia.
    + unfold s4. rewrite deletePhoto_filmCount. lia.
    + unfold s6, s4. rewrite !deletePhoto_filmCount. lia.
    + destruct (photos s6) as [|q l]; [reflexivity|].
      exfalso. apply (Hs6 q). left. reflexivity.
Qed.

Lemma C2_witness :
  let w3 := capturePhoto demoBrowser 3000 3000
              (capturePhoto demoBrowser 2000 2000
                 (capturePhoto demoBrowser 1000 1000 demoSys)) in
  let p := mkPhoto "2000" "data:image/jpeg;rows=2" vintage 2000 in
  (In p (photos (app w3)) /\
   ~ In p (photos (deletePhoto (id p) (app w3)))) /\
  (videoRef demoSys = Some demoVideo /\
   canvasRef demoSys = Some freshCanvas /\
   has2d freshCanvas = true /\
   filmCount (app demoSys) = 24 /\
   photos (app demoSys) = [] /\
   filmCount (deletePhoto (toString 1000) (app w3)) = 22 /\
   filmCount (deletePhoto (toString 3000)
                (deletePhoto (toString 2000)
                   (deletePhoto (toString 1000) (app w3)))) = 24).
Proof.
  intros w3 p. split.
  - assert (Hin : In p (photos (app w3))).
    { vm_compute. right. left. reflexivity. }
    split; [exact Hin|].
    exact (proj1 (proj1 C2_delete_restores_one_exposure_capped (app w3) p Hin)).
  - do 5 (split; [reflexivity|]).
    pose proof (proj2 C2_delete_restores_one_exposure_capped
                  demoBrowser demoSys demoVideo freshCanvas
                  1000 1000 2000 2000 3000 3000
                  eq_refl eq_refl eq_refl eq_refl eq_refl) as H.
    cbv zeta in H. fold w3 in H.
    destruct H as (_ & _ & H22 & H24 & _).
    split; [exact H22 | exact H24].
Defined.

(** C10. When no Photo of the gallery has the given identifier,
    [deletePhoto] leaves the gallery as it is and still sets the counter to
    min(counter + 1, 24): an exposure comes back although nothing was
    removed. *)
Theorem C10_delete_absent_id_still_restores (s : AppState) (photoId : string) :
  (forall p, In p (photos s) -> id p <> photoId) ->
  photos (deletePhoto photoId s) = photos s /\
  filmCount (deletePhoto photoId s) = Z.min (filmCount s + 1) 24 /\
  (filmCount s < 24 -> filmCount (deletePhoto photoId s) = filmCount s + 1).
Proof.
  intros Habs. repeat split.
  - rewrite deletePhoto_photos.
    induction (photos s) as [|a l IH]; [reflexivity|].
    simpl. destruct (String.eqb_spec (id a) photoId) as [E | N].
    + exfalso. apply (Habs a); [left; reflexivity | exact E].
    + simpl. f_equal. apply IH. intros p Hp. apply Habs. right. exact Hp.
  - rewrite deletePhoto_filmCount. lia.
Qed.

Lemma C10_witness :
  let s := app (capturePhoto demoBrowser 1000 1000 demoSys) in
  (forall p, In p (photos s) -> id p <> "4711") /\
  photos (deletePhoto "4711" s) = photos s /\
  filmCount s = 23 /\
  filmCount (deletePhoto "4711" s) = 24.
Proof.
  cbv zeta.
  assert (Habs : forall p,
             In p (photos (app (capturePhoto demoBrowser 1000 1000 demoSys))) ->
             id p <> "4711").
  { intros p [<- | []]. simpl. discriminate. }
  split; [exact Habs|].
  split; [|split; reflexivity].
  apply (C10_delete_absent_id_still_restores
           (app (capturePhoto demoBrowser 1000 1000 demoSys)) "4711" Habs).
Defined.

(** ** What a capture stores *)

(** C3. With an exposure left, a video element and a drawing context, a
    capture takes exactly one off the counter and puts in front of the
    gallery a Photo whose identifier is the decimal string of [Date.now()],
    whose payload is what the encoder makes of the drawn canvas for
    ["image/jpeg"] at quality 0.9, whose filter is the selected one and
    whose timestamp is the value of [new Date()].  A session with 24
    exposures, an empty gallery, the filter [noir] and the back camera ends
    with one Photo, of filter [noir], and 23 exposures. *)
Theorem C3_capture_stores_photo_and_decrements (B : Browser) (d e : Z) (w : Sys)
    (v : HTMLVideoElement) (c : HTMLCanvasElement) :
  videoRef w = Some v -> canvasRef w = Some c -> has2d c = true ->
  0 < filmCount (app w) ->
  let w' := capturePhoto B d e w in
  let drawn := renderFrame B (currentFilter (app w)) (facingMode (app w)) v c in
  let newPhoto :=
    {| id := toString d;
       dataUrl := encodeImage B "image/jpeg" (9 # 10) (Canvas2D.rows drawn);
       filter := currentFilter (app w);
       timestamp := e |} in
  filmCount (app w') = filmCount (app w) - 1 /\
  photos (app w') = newPhoto :: photos (app w) /\
  (filmCount (app w) = 24 -> photos (app w) = [] ->
   currentFilter (app w) = noir -> facingMode (app w) = environment ->
   filmCount (app w') = 23 /\
   exists p, photos (app w') = [p] /\ filter p = noir).
Proof.
  intros Hv Hc H2d Hfilm w' drawn newPhoto.
  pose proof (capturePhoto_success B d e w v c Hv Hc H2d Hfilm) as E.
  fold w' in E. cbv zeta in E.
  assert (Hcount : filmCount (app w') = filmCount (app w) - 1) by (rewrite E; reflexivity).
  assert (Hgal : photos (app w') = newPhoto :: photos (app w)) by (rewrite E; reflexivity).
  split; [exact Hcount|]. split; [exact Hgal|].
  intros H24 Hempty Hnoir _.
  split; [lia|].
  exists newPhoto. rewrite Hgal, Hempty. split; [reflexivity | exact Hnoir].
Qed.

Lemma C3_witness :
  let w := onApp (setCurrentFilter noir) demoSys in
  (videoRef w = Some demoVideo /\ canvasRef w = Some freshCanvas /\
   has2d freshCanvas = true /\ 0 < filmCount (app w)) /\
  (filmCount (app w) = 24 /\ photos (app w) = [] /\
   currentFilter (app w) = noir /\ facingMode (app w) = environment) /\
  filmCount (app (capturePhoto demoBrowser 1000 1001 w)) = 23 /\
  photos (app (capturePhoto demoBrowser 1000 1001 w)) =
    [mkPhoto "1000" "data:image/jpeg;rows=2" noir 1001] /\
  exists p, photos (app (capturePhoto demoBrowser 1000 1001 w)) = [p] /\ filter p = noir.
Proof.
  cbv zeta.
  split; [repeat split|]. split; [repeat split|].
  pose proof (C3_capture_stores_photo_and_decrements demoBrowser 1000 1001
                (onApp (setCurrentFilter noir) demoSys) demoVideo freshCanvas
                eq_refl eq_refl eq_refl eq_refl) as H.
  cbv zeta in H. destruct H as (Hc & Hp & Hs).
  split; [exact Hc|]. split; [exact Hp|].
  exact (proj2 (Hs eq_refl eq_refl eq_refl eq_refl)).
Defined.

Lemma find_filter_by_name (F : FilterDescriptor) :
  In F filters ->
  find (fun f => FilterType_eqb (name f) (name F)) filters = Some F.
Proof.
  unfold filters. simpl.
  intros [<- | [<- | [<- | [<- | [<- | [<- | []]]]]]]; reflexivity.
Qed.

Lemma ctxFilter_renderFrame (B : Browser) cf fm v c :
  ctxFilter (renderFrame B cf fm v c) =
    cssOrNone (find (fun f => FilterType_eqb (name f) cf) filters).
Proof. unfold renderFrame. destruct fm; reflexivity. Qed.

(** C5. The catalog has six entries with six different identities, and for
    each of them a capture made while it is selected stores its identity
    in the Photo; the canvas was drawn with its CSS filter. *)
Theorem C5_filter_identity_round_trips :
  List.length filters = 6%nat /\
  NoDup (map name filters) /\
  forall (F : FilterDescriptor), In F filters ->
  forall (B : Browser) (d e : Z) (w : Sys) v c,
    videoRef w = Some v -> canvasRef w = Some c -> has2d c = true ->
    0 < filmCount (app w) ->
    currentFilter (app w) = name F ->
    exists p drawn,
      photos (app (capturePhoto B d e w)) = p :: photos (app w) /\
      filter p = name F /\
      canvasRef (capturePhoto B d e w) = Some drawn /\
      ctxFilter drawn = css F.
Proof.
  split; [reflexivity|]. split.
  - simpl. repeat constructor; simpl; intuition discriminate.
  - intros F HF B d e w v c Hv Hc H2d Hfilm Hsel.
    pose proof (capturePhoto_success B d e w v c Hv Hc H2d Hfilm) as E.
    cbv zeta in E. rewrite E. simpl.
    eexists. eexists. split; [reflexivity|]. split; [exact Hsel|].
    split; [reflexivity|].
    rewrite ctxFilter_renderFrame, Hsel, (find_filter_by_name F HF).
    unfold filters in HF. simpl in HF.
    destruct HF as [<- | [<- | [<- | [<- | [<- | [<- | []]]]]]]; reflexivity.
Qed.

Lemma C5_witness :
  let F := mkFilter sepia "Sepia" "sepia(0.8) contrast(1.1)" in
  let w := onApp (setCurrentFilter sepia) demoSys in
  In F filters /\
  exists p drawn,
    photos (app (capturePhoto demoBrowser 1000 1001 w)) = p :: photos (app w) /\
    filter p = name F /\
    canvasRef (capturePhoto demoBrowser 1000 1001 w) = Some drawn /\
    ctxFilter drawn = css F.
Proof.
  cbv zeta.
  assert (HF : In (mkFilter sepia "Sepia" "sepia(0.8) contrast(1.1)") filters).
  { right. right. left. reflexivity. }
  split; [exact HF|].
  exact (proj2 (proj2 C5_filter_identity_round_trips) _ HF demoBrowser 1000 1001
           (onApp (setCurrentFilter sepia) demoSys) demoVideo freshCanvas
           eq_refl eq_refl eq_refl eq_refl eq_refl).
Defined.

(** C6. A capture that goes through puts its Photo in front of the
    gallery; three captures P1, P2, P3 into an empty gallery leave
    [P3; P2; P1]. *)
Theorem C6_gallery_is_newest_first (B : Browser) (w : Sys)
    (v : HTMLVideoElement) (c : HTMLCanvasElement) (d1 e1 d2 e2 d3 e3 : Z) :
  videoRef w = Some v -> canvasRef w = Some c -> has2d c = true ->
  3 <= filmCount (app w) ->
  let w1 := capturePhoto B d1 e1 w in
  let w2 := capturePhoto B d2 e2 w1 in
  let w3 := capturePhoto B d3 e3 w2 in
  exists P1 P2 P3,
    (id P1 = toString d1 /\ timestamp P1 = e1) /\
    (id P2 = toString d2 /\ timestamp P2 = e2) /\
    (id P3 = toString d3 /\ timestamp P3 = e3) /\
    photos (app w1) = P1 :: photos (app w) /\
    photos (app w2) = P2 :: P1 :: photos (app w) /\
    photos (app w3) = P3 :: P2 :: P1 :: photos (app w) /\
    (photos (app w) = [] -> photos (app w3) = [P3; P2; P1]).
Proof.
  intros Hv Hc H2d Hfilm w1 w2 w3.
  destruct (three_captures B w v c d1 e1 d2 e2 d3 e3 Hv Hc H2d Hfilm)
    as (u1 & u2 & u3 & G1 & G2 & G3 & _).
  fold w1 in G1, G2, G3. fold w2 in G2, G3. fold w3 in G3.
  exists (mkPhoto (toString d1) u1 (currentFilter (app w)) e1),
         (mkPhoto (toString d2) u2 (currentFilter (app w)) e2),
         (mkPhoto (toString d3) u3 (currentFilter (app w)) e3).
  split; [split; reflexivity|].
  split; [split; reflexivity|].
  split; [split; reflexivity|].
  split; [exact G1|].
  split; [rewrite G2, G1; reflexivity|].
  split; [rewrite G3, G2, G1; reflexivity|].
  intros Hempty. rewrite G3, G2, G1, Hempty. reflexivity.
Qed.

Lemma C6_witness :
  (videoRef demoSys = Some demoVideo /\ canvasRef demoSys = Some freshCanvas /\
   has2d freshCanvas = true /\ 3 <= filmCount (app demoSys)) /\
  exists P1 P2 P3,
    id P1 = "1000" /\ id P2 = "2000" /\ id P3 = "3000" /\
    photos (app (capturePhoto demoBrowser 3000 3000
                   (capturePhoto demoBrowser 2000 2000
                      (capturePhoto demoBrowser 1000 1000 demoSys)))) = [P3; P2; P1].
Proof.
  split; [repeat split; discriminate|].
  destruct (C6_gallery_is_newest_first demoBrowser demoSys demoVideo freshCanvas
              1000 1000 2000 2000 3000 3000 eq_refl eq_refl eq_refl)
    as (P1 & P2 & P3 & [I1 _] & [I2 _] & [I3 _] & _ & _ & _ & G).
  { discriminate. }
  exists P1, P2, P3.
  split; [exact I1|]. split; [exact I2|]. split; [exact I3|].
  apply G. reflexivity.
Defined.

(** ** The shutter while a capture is in progress *)

(** [capturePhoto] itself does not look at [isCapturing]: called while
    the flag is set it takes a photo all the same. *)
Lemma capturePhoto_ignores_isCapturing (B : Browser) d e w v c :
  videoRef w = Some v -> canvasRef w = Some c -> has2d c = true ->
  0 < filmCount (app w) -> isCapturing (app w) = true ->
  List.length (photos (app (capturePhoto B d e w))) = S (List.length (photos (app w))).
Proof.
  intros Hv Hc H2d Hfilm _.
  rewrite (capturePhoto_success B d e w v c Hv Hc H2d Hfilm). reflexivity.
Qed.

(** C7. While [isCapturing] is set the shutter button is disabled, so a
    press does nothing: the component, its gallery and its counter are what
    they were, and nothing is shown to the user.  A capture through the
    button sets the flag and schedules its reset after 300 ms; a second
    press before that reset is such a press. *)
Theorem C7_shutter_ignored_while_capturing (B : Browser) (d e d' e' : Z) (w : Sys) :
  (isCapturing (app w) = true -> shutterClick B d e w = w) /\
  (forall v c,
      videoRef w = Some v -> canvasRef w = Some c -> has2d c = true ->
      shutterDisabled (app w) = false ->
      let w1 := shutterClick B d e w in
      isCapturing (app w1) = true /\
      In (300, ClearCapturing) (timers w1) /\
      shutterClick B d' e' w1 = w1 /\
      photos (app (shutterClick B d' e' w1)) = photos (app w1) /\
      filmCount (app (shutterClick B d' e' w1)) = filmCount (app w1)).
Proof.
  assert (Hgen : forall x, isCapturing (app x) = true -> shutterClick B d' e' x = x).
  { intros x Hx. unfold shutterClick, shutterDisabled. rewrite Hx. reflexivity. }
  split.
  - intros Hcap. unfold shutterClick, shutterDisabled. rewrite Hcap. reflexivity.
  - intros v c Hv Hc H2d Hen w1.
    assert (Hfilm : 0 < filmCount (app w)).
    { unfold shutterDisabled in Hen.
      apply orb_false_iff in Hen. destruct Hen as [Hen _].
      apply orb_false_iff in Hen. destruct Hen as [_ Hen].
      apply Z.leb_gt in Hen. exact Hen. }
    assert (E : w1 = capturePhoto B d e w).
    { unfold w1, shutterClick. rewrite Hen. reflexivity. }
    rewrite (capturePhoto_success B d e w v c Hv Hc H2d Hfilm) in E. cbv zeta in E.
    assert (Hflag : isCapturing (app w1) = true) by (rewrite E; reflexivity).
    split; [exact Hflag|].
    split; [rewrite E; simpl; apply in_or_app; right; left; reflexivity|].
    rewrite (Hgen w1 Hflag). repeat split.
Qed.

Lemma C7_witness :
  (videoRef demoSys = Some demoVideo /\ canvasRef demoSys = Some freshCanvas /\
   has2d freshCanvas = true /\ shutterDisabled (app demoSys) = false) /\
  let w1 := shutterClick demoBrowser 1000 1000 demoSys in
  isCapturing (app w1) = true /\
  shutterClick demoBrowser 1100 1100 w1 = w1.
Proof.
  split; [repeat split|].
  cbv zeta.
  destruct (proj2 (C7_shutter_ignored_while_capturing demoBrowser 1000 1000 1100 1100 demoSys)
              demoVideo freshCanvas eq_refl eq_refl eq_refl eq_refl)
    as (Hflag & _ & Hnoop & _).
  split; [exact Hflag|].
  exact (proj1 (C7_shutter_ignored_while_capturing demoBrowser 1100 1100 1100 1100
                  (shutterClick demoBrowser 1000 1000 demoSys)) Hflag).
Defined.

(** ** Orientation of the drawn frame *)

Lemma sample_identity (X : nat) : Canvas2D.sample 1 0 X = Z.of_nat X.
Proof.
  unfold Canvas2D.sample. symmetry.
  apply Z.div_unique with (r := 1); lia.
Qed.

Lemma sample_mirror (W X : nat) :
  (X < W)%nat -> Canvas2D.sample (-1) (Z.of_nat W) X = Z.of_nat (W - 1 - X).
Proof.
  intros HX. unfold Canvas2D.sample. symmetry.
  apply Z.div_unique with (r := -1); lia.
Qed.

Lemma inFrame_of_nat (i n : nat) : (i < n)%nat -> Canvas2D.inFrame (Z.of_nat i) n = true.
Proof.
  intros Hi. unfold Canvas2D.inFrame.
  apply andb_true_iff. split; [apply Z.leb_le | apply Z.ltb_lt]; lia.
Qed.

(** Reading a list of columns from the right is reversing it. *)
Lemma map_seq_mirror {A : Type} (g : nat -> A) (W : nat) :
  map (fun x => g (W - 1 - x)%nat) (seq 0 W) = rev (map g (seq 0 W)).
Proof.
  induction W as [|W IH]; [reflexivity|].
  rewrite seq_S at 2. rewrite map_app, rev_app_distr. cbn [map rev Datatypes.app Nat.add].
  change (seq 0 (S W)) with (0%nat :: seq 1 W).
  rewrite map_cons. f_equal.
  - f_equal. lia.
  - rewrite <- seq_shift, map_map, <- IH.
    apply map_ext. intros x. f_equal. lia.
Qed.

Lemma transform_back (B : Browser) cf v c :
  ctxTransform (renderFrame B cf environment v c) = identityTransform.
Proof. reflexivity. Qed.

Lemma transform_front (B : Browser) cf v c :
  ctxTransform (renderFrame B cf user v c) =
    mkTransform (-1) 1 (Z.of_nat (videoWidth v)) 0.
Proof.
  unfold renderFrame. cbn [FacingMode_eqb drawImage ctxTransform Canvas2D.scale
    Canvas2D.translate Canvas2D.setFilter Canvas2D.setSize width identityTransform
    sx sy tx ty].
  f_equal; lia.
Qed.

(** What a cell of the canvas holds after the draw, in terms of the
    transformation in force. *)
Lemma bitmap_renderFrame (B : Browser) cf fm v c X Y :
  bitmap (renderFrame B cf fm v c) X Y =
    let t := ctxTransform (renderFrame B cf fm v c) in
    let i := Canvas2D.sample (sx t) (tx t) X in
    let j := Canvas2D.sample (sy t) (ty t) Y in
    if Canvas2D.inFrame i (videoWidth v) && Canvas2D.inFrame j (videoHeight v)
    then applyFilter B (cssOrNone (find (fun f => FilterType_eqb (name f) cf) filters))
                     (frame v (Z.to_nat i) (Z.to_nat j))
    else transparent.
Proof. destruct fm; reflexivity. Qed.

Lemma bitmap_back (B : Browser) cf v c X Y :
  (X < videoWidth v)%nat -> (Y < videoHeight v)%nat ->
  bitmap (renderFrame B cf environment v c) X Y =
    applyFilter B (cssOrNone (find (fun f => FilterType_eqb (name f) cf) filters))
                (frame v X Y).
Proof.
  intros HX HY. rewrite bitmap_renderFrame, transform_back. cbv zeta.
  unfold identityTransform; cbn [sx sy tx ty].
  rewrite !sample_identity, !inFrame_of_nat, !Nat2Z.id by assumption.
  reflexivity.
Qed.

Lemma bitmap_front (B : Browser) cf v c X Y :
  (X < videoWidth v)%nat -> (Y < videoHeight v)%nat ->
  bitmap (renderFrame B cf user v c) X Y =
    applyFilter B (cssOrNone (find (fun f => FilterType_eqb (name f) cf) filters))
                (frame v (videoWidth v - 1 - X)%nat Y).
Proof.
  intros HX HY. rewrite bitmap_renderFrame, transform_front. cbv zeta.
  cbn [sx sy tx ty].
  rewrite sample_identity, (sample_mirror _ _ HX).
  rewrite !inFrame_of_nat, !Nat2Z.id by lia.
  reflexivity.
Qed.

Lemma rows_back (B : Browser) cf v c :
  Canvas2D.rows (renderFrame B cf environment v c) =
    map (map (applyFilter B (cssOrNone (find (fun f => FilterType_eqb (name f) cf) filters))))
        (Canvas2D.frameRows v).
Proof.
  unfold Canvas2D.rows, Canvas2D.frameRows.
  destruct (width_renderFrame B cf environment v c) as [-> ->].
  rewrite map_map. apply map_ext_in. intros y Hy. apply in_seq in Hy.
  rewrite map_map. apply map_ext_in. intros x Hx. apply in_seq in Hx.
  apply bitmap_back; lia.
Qed.

Lemma rows_front (B : Browser) cf v c :
  Canvas2D.rows (renderFrame B cf user v c) =
    map (@rev Pixel) (Canvas2D.rows (renderFrame B cf environment v c)).
Proof.
  unfold Canvas2D.rows.
  destruct (width_renderFrame B cf environment v c) as [-> ->].
  destruct (width_renderFrame B cf user v c) as [-> ->].
  rewrite map_map. apply map_ext_in. intros y Hy. apply in_seq in Hy.
  rewrite <- map_seq_mirror.
  apply map_ext_in. intros x Hx. apply in_seq in Hx.
  rewrite bitmap_front, bitmap_back by lia.
  reflexivity.
Qed.

(** C4. For one and the same frame, the canvas of a back-facing capture
    holds the filtered frame as it is, and the canvas of a front-facing
    capture holds every row of it reversed: the two differ by the
    horizontal flip, and each Photo's payload is the encoding of its own
    canvas. *)
Theorem C4_front_capture_is_mirrored (B : Browser) (d e : Z) (w : Sys)
    (v : HTMLVideoElement) (c : HTMLCanvasElement) :
  videoRef w = Some v -> canvasRef w = Some c -> has2d c = true ->
  0 < filmCount (app w) ->
  let front := capturePhoto B d e (onApp (setFacingMode (fun _ => user)) w) in
  let back := capturePhoto B d e (onApp (setFacingMode (fun _ => environment)) w) in
  let F := applyFilter B (cssOrNone
             (find (fun f => FilterType_eqb (name f) (currentFilter (app w))) filters)) in
  exists cf cb,
    canvasRef front = Some cf /\ canvasRef back = Some cb /\
    Canvas2D.rows cb = map (map F) (Canvas2D.frameRows v) /\
    Canvas2D.rows cf = map (@rev Pixel) (Canvas2D.rows cb) /\
    map dataUrl (firstn 1 (photos (app front))) =
      [encodeImage B "image/jpeg" (9 # 10) (Canvas2D.rows cf)] /\
    map dataUrl (firstn 1 (photos (app back))) =
      [encodeImage B "image/jpeg" (9 # 10) (Canvas2D.rows cb)].
Proof.
  intros Hv Hc H2d Hfilm front back F.
  pose proof (capturePhoto_success B d e (onApp (setFacingMode (fun _ => user)) w)
                v c Hv Hc H2d Hfilm) as Ef.
  pose proof (capturePhoto_success B d e (onApp (setFacingMode (fun _ => environment)) w)
                v c Hv Hc H2d Hfilm) as Eb.
  fold front in Ef. fold back in Eb. cbv zeta in Ef, Eb.
  exists (renderFrame B (currentFilter (app w)) user v c),
         (renderFrame B (currentFilter (app w)) environment v c).
  split; [rewrite Ef; reflexivity|].
  split; [rewrite Eb; reflexivity|].
  split; [apply rows_back|].
  split; [apply rows_front|].
  split; [rewrite Ef | rewrite Eb]; reflexivity.
Qed.

Lemma C4_witness :
  (videoRef demoSys = Some demoVideo /\ canvasRef demoSys = Some freshCanvas /\
   has2d freshCanvas = true /\ 0 < filmCount (app demoSys)) /\
  exists cf cb,
    canvasRef (capturePhoto demoBrowser 1000 1000
                 (onApp (setFacingMode (fun _ => user)) demoSys)) = Some cf /\
    canvasRef (capturePhoto demoBrowser 1000 1000
                 (onApp (setFacingMode (fun _ => environment)) demoSys)) = Some cb /\
    Canvas2D.rows cb = [[rgba 0 0 0 255; rgba 1 0 0 255]; [rgba 0 1 0 255; rgba 1 1 0 255]] /\
    Canvas2D.rows cf = [[rgba 1 0 0 255; rgba 0 0 0 255]; [rgba 1 1 0 255; rgba 0 1 0 255]].
Proof.
  split; [repeat split|].
  destruct (C4_front_capture_is_mirrored demoBrowser 1000 1000 demoSys demoVideo freshCanvas
              eq_refl eq_refl eq_refl eq_refl)
    as (cf & cb & Hf & Hb & Hrb & Hrf & _).
  exists cf, cb.
  split; [exact Hf|]. split; [exact Hb|].
  assert (Hcb : Canvas2D.rows cb =
                [[rgba 0 0 0 255; rgba 1 0 0 255]; [rgba 0 1 0 255; rgba 1 1 0 255]]).
  { rewrite Hrb. reflexivity. }
  split; [exact Hcb|].
  rewrite Hrf, Hcb. reflexivity.
Defined.

(** ** Identifiers *)

Lemma toString_inj (a b : Z) : toString a = toString b -> a = b.
Proof.
  unfold toString. intros H.
  apply DecimalZ.to_int_inj.
  assert (E : Some (Z.to_int a) = Some (Z.to_int b)).
  { rewrite <- !NilEmpty.isi. rewrite H. reflexivity. }
  congruence.
Qed.

Lemma sorted_ids_NoDup (zs : list Z) :
  StronglySorted Z.gt zs -> NoDup (map toString zs).
Proof.
  induction 1 as [|z zs Hs IH Hall]; simpl; constructor; [|exact IH].
  intros Hin. apply in_map_iff in Hin. destruct Hin as (y & Hy & Hin).
  apply toString_inj in Hy. subst y.
  rewrite Forall_forall in Hall. specialize (Hall z Hin). lia.
Qed.

Lemma NoDup_map_In_inj {A C : Type} (f : A -> C) (l : list A) (p q : A) :
  NoDup (map f l) -> In p l -> In q l -> f p = f q -> p = q.
Proof.
  induction l as [|a l IH]; simpl; [tauto|].
  intros Hnd Hp Hq Hf. inversion Hnd as [|? ? Hnotin Hnd']; subst.
  destruct Hp as [-> | Hp], Hq as [-> | Hq].
  - reflexivity.
  - exfalso. apply Hnotin. rewrite Hf. apply in_map. exact Hq.
  - exfalso. apply Hnotin. rewrite <- Hf. apply in_map. exact Hp.
  - apply IH; assumption.
Qed.

(** Filtering a gallery whose identifiers come from [zs] leaves one whose
    identifiers come from a part of [zs], in the same order. *)
Lemma filter_ids (f : Photo -> bool) (g : list Photo) :
  forall zs, map id g = map toString zs ->
  exists zs1,
    map id (List.filter f g) = map toString zs1 /\
    incl zs1 zs /\
    (StronglySorted Z.gt zs -> StronglySorted Z.gt zs1).
Proof.
  induction g as [|p g IH]; intros zs Hmap.
  - exists []. simpl. split; [reflexivity|]. split; [intros x []|]. intros _. constructor.
  - destruct zs as [|z zs]; [discriminate|].
    simpl in Hmap. injection Hmap as Hp Hrest.
    destruct (IH zs Hrest) as (zs1 & Hm1 & Hincl & Hsort).
    simpl. destruct (f p).
    + exists (z :: zs1). simpl. split; [rewrite Hp, Hm1; reflexivity|].
      split.
      * intros x [<- | Hx]; [left; reflexivity | right; apply Hincl; exact Hx].
      * intros Hs. inversion Hs as [|? ? Hs' Hall]; subst.
        constructor; [apply Hsort; exact Hs'|].
        rewrite Forall_forall in *. intros x Hx. apply Hall, Hincl, Hx.
    + exists zs1. split; [exact Hm1|]. split.
      * intros x Hx. right. apply Hincl. exact Hx.
      * intros Hs. inversion Hs; subst. apply Hsort. assumption.
Qed.

(** As long as every reading of [Date.now()] is above all earlier ones, the
    identifiers of the gallery are the strings of strictly decreasing
    readings. *)
Lemma gallery_ids_invariant (B : Browser) (l : list Action) :
  forall (w : Sys) (zs : list Z),
    map id (photos (app w)) = map toString zs ->
    StronglySorted Z.gt zs ->
    StronglySorted Z.lt (readings l) ->
    Forall (fun z => Forall (fun d => z < d) (readings l)) zs ->
    exists zs',
      map id (photos (app (fold_left (act B) l w))) = map toString zs' /\
      StronglySorted Z.gt zs' /\
      incl zs' (zs ++ readings l).
Proof.
  induction l as [|a l IH]; intros w zs Hmap Hsort Hread Hbelow.
  - exists zs. simpl. split; [exact Hmap|]. split; [exact Hsort|].
    rewrite app_nil_r. apply incl_refl.
  - destruct a as [d e | pid].
    + change (readings (Capture d e :: l)) with (d :: readings l) in *.
      inversion Hread as [|? ? Hread' Hd]; subst.
      assert (Hbelow' : Forall (fun z => Forall (fun d0 => z < d0) (readings l)) zs).
      { eapply Forall_impl; [|exact Hbelow]. intros z Hz. inversion Hz; assumption. }
      simpl fold_left.
      destruct (capturePhoto_gallery B d e w) as [[Hg _] | (url & Hg & _)].
      * destruct (IH (capturePhoto B d e w) zs) as (zs' & H1 & H2 & H3);
          [rewrite Hg; exact Hmap | exact Hsort | exact Hread' | exact Hbelow' |].
        exists zs'. split; [exact H1|]. split; [exact H2|].
        intros x Hx. apply H3 in Hx. apply in_app_or in Hx.
        apply in_or_app. destruct Hx; [left | right; right]; assumption.
      * destruct (IH (capturePhoto B d e w) (d :: zs)) as (zs' & H1 & H2 & H3).
        -- rewrite Hg. simpl. rewrite Hmap. reflexivity.
        -- constructor; [exact Hsort|].
           eapply Forall_impl; [|exact Hbelow].
           intros z Hz. inversion Hz; subst. lia.
        -- exact Hread'.
        -- constructor; [exact Hd | exact Hbelow'].
        -- exists zs'. split; [exact H1|]. split; [exact H2|].
           intros x Hx. apply H3 in Hx. simpl in Hx.
           apply in_or_app. destruct Hx as [<- | Hx]; [right; left; reflexivity|].
           apply in_app_or in Hx. destruct Hx; [left | right; right]; assumption.
    + change (readings (Delete pid :: l)) with (readings l) in *.
      simpl fold_left.
      destruct (filter_ids (fun p => negb (String.eqb (id p) pid)) (photos (app w)) zs Hmap)
        as (zs1 & Hm1 & Hincl & Hs1).
      destruct (IH (onApp (deletePhoto pid) w) zs1) as (zs' & H1 & H2 & H3).
      * exact Hm1.
      * apply Hs1. exact Hsort.
      * exact Hread.
      * rewrite Forall_forall in *. intros z Hz. apply Hbelow, Hincl, Hz.
      * exists zs'. split; [exact H1|]. split; [exact H2|].
        intros x Hx. apply H3 in Hx. apply in_app_or in Hx.
        apply in_or_app. destruct Hx as [Hx | Hx]; [left; apply Hincl | right]; assumption.
Qed.

(** C8, as amended.  Starting with an empty gallery, through any sequence
    of captures and deletions in which each reading of [Date.now()] is
    above the earlier ones, the identifiers in the gallery are the decimal
    strings of readings that strictly decrease from the front (the newest
    Photo) to the back, and so no two Photos share one. *)
Theorem C8_ids_unique_when_clock_advances (B : Browser) (w : Sys) (l : list Action) :
  photos (app w) = [] ->
  StronglySorted Z.lt (readings l) ->
  let g := photos (app (fold_left (act B) l w)) in
  (exists zs, map id g = map toString zs /\
              StronglySorted Z.gt zs /\
              incl zs (readings l)) /\
  NoDup (map id g) /\
  uniqueIds g.
Proof.
  intros Hempty Hread g.
  destruct (gallery_ids_invariant B l w [] ) as (zs & Hm & Hs & Hincl).
  - rewrite Hempty. reflexivity.
  - constructor.
  - exact Hread.
  - constructor.
  - fold g in Hm.
    assert (Hnd : NoDup (map id g)) by (rewrite Hm; apply sorted_ids_NoDup; exact Hs).
    split; [exists zs; repeat split; assumption|].
    split; [exact Hnd|].
    intros p q Hp Hq Hneq Hid. apply Hneq.
    exact (NoDup_map_In_inj id g p q Hnd Hp Hq Hid).
Qed.

Lemma C8_witness :
  let l := [Capture 1000 1000; Capture 1400 1400; Delete "1000"; Capture 1800 1801] in
  (photos (app demoSys) = [] /\ StronglySorted Z.lt (readings l)) /\
  map id (photos (app (fold_left (act demoBrowser) l demoSys))) = ["1800"; "1400"] /\
  uniqueIds (photos (app (fold_left (act demoBrowser) l demoSys))).
Proof.
  cbv zeta.
  assert (Hs : StronglySorted Z.lt
                 (readings [Capture 1000 1000; Capture 1400 1400;
                            Delete "1000"; Capture 1800 1801])).
  { simpl. repeat constructor. }
  split; [split; [reflexivity | exact Hs]|].
  split; [reflexivity|].
  exact (proj2 (proj2 (C8_ids_unique_when_clock_advances demoBrowser demoSys
           [Capture 1000 1000; Capture 1400 1400; Delete "1000"; Capture 1800 1801]
           eq_refl Hs))).
Defined.

(** C8 as worded fails: the shutter is pressed when [Date.now()] reads
    1000, both timers run, the clock is set back, and the shutter is
    pressed again when it reads 1000 once more.  The gallery then holds two
    different Photos with the identifier ["1000"]. *)
Lemma C8_counterexample :
  let m := run demoBrowser init
             [Mount; Settles 0 true; ClickShutter 1000 1000;
              TimerFires 0; TimerFires 0; ClickShutter 1000 1001] in
  map id (photos (app (sys m))) = ["1000"; "1000"] /\
  map timestamp (photos (app (sys m))) = [1001; 1000] /\
  ~ uniqueIds (photos (app (sys m))).
Proof.
  intros m.
  assert (G : photos (app (sys m)) =
              [mkPhoto "1000" "data:image/jpeg;rows=0" vintage 1001;
               mkPhoto "1000" "data:image/jpeg;rows=0" vintage 1000]).
  { vm_compute. reflexivity. }
  rewrite G.
  split; [reflexivity|]. split; [reflexivity|].
  intros H.
  apply (H (mkPhoto "1000" "data:image/jpeg;rows=0" vintage 1001)
           (mkPhoto "1000" "data:image/jpeg;rows=0" vintage 1000)).
  - left. reflexivity.
  - right. left. reflexivity.
  - discriminate.
  - reflexivity.
Qed.

(** ** Camera handles across switches *)

Lemma filter_none {A : Type} (f : A -> bool) (l : list A) :
  Forall (fun x => f x = false) l -> List.filter f l = [].
Proof.
  induction 1 as [|x l Hx _ IH]; simpl; [reflexivity|].
  rewrite Hx. exact IH.
Qed.

Lemma filter_all {A : Type} (f : A -> bool) (l : list A) :
  Forall (fun x => f x = true) l -> List.filter f l = l.
Proof.
  induction 1 as [|x l Hx _ IH]; simpl; [reflexivity|].
  rewrite Hx, IH. reflexivity.
Qed.

Lemma trackStopped_app (a b : list Track) (t : Track) :
  trackStopped (a ++ b) t = trackStopped a t || trackStopped b t.
Proof. unfold trackStopped. apply existsb_app. Qed.

(** A stream that is not active stays so whatever is stopped later. *)
Lemma active_mono (calls more : list Track) (s : MediaStream) :
  active calls s = false -> active (calls ++ more) s = false.
Proof.
  unfold active. destruct s as [ts]. simpl.
  induction ts as [|x ts IH]; simpl; [reflexivity|].
  intros H. apply orb_false_iff in H. destruct H as [Hx Hts].
  rewrite (IH Hts), trackStopped_app.
  apply negb_false_iff in Hx. rewrite Hx. reflexivity.
Qed.

(** A track the platform has not handed out yet has not been stopped. *)
Lemma fresh_not_stopped (calls : list Track) (n : Track) :
  Forall (fun x => (x < n)%nat) calls -> trackStopped calls n = false.
Proof.
  unfold trackStopped. induction 1 as [|x l Hx _ IH]; simpl; [reflexivity|].
  rewrite IH. destruct (Nat.eqb_spec n x); [lia | reflexivity].
Qed.

Lemma stopStream_fresh (o : option MediaStream) (calls : list Track) (n : Track) :
  Forall (fun x => (x < n)%nat) calls ->
  match o with Some s => Forall (fun x => (x < n)%nat) (getTracks s) | None => True end ->
  Forall (fun x => (x < n)%nat) (stopStream o calls).
Proof.
  intros Hc Ho. destruct o as [s|]; simpl; [|exact Hc].
  apply Forall_app. split; assumption.
Qed.

Lemma stopStream_mono (o : option MediaStream) (calls : list Track) (s : MediaStream) :
  active calls s = false -> active (stopStream o calls) s = false.
Proof.
  intros H. destruct o as [s'|]; simpl; [apply active_mono|]; exact H.
Qed.

(** At rest exactly the stream of the state is open, and the ones before
    it are the released ones. *)
Lemma settled_streams (m : Machine) old t :
  Settled m old t ->
  activeStreams m = [mkStream [t]] /\ releasedStreams m = old.
Proof.
  intros H. destruct H. unfold activeStreams, releasedStreams.
  rewrite settled_opened0, !filter_app.
  assert (Hact : active (stopCalls m) (mkStream [t]) = true).
  { unfold active. simpl. rewrite settled_live0. reflexivity. }
  simpl. rewrite Hact. simpl. split.
  - rewrite (filter_none _ _ settled_old0). reflexivity.
  - rewrite app_nil_r. apply filter_all.
    eapply Forall_impl; [|exact settled_old0].
    intros s Hs. simpl in Hs. rewrite Hs. reflexivity.
Qed.

(** One switch of the camera from rest: while the new request is
    outstanding no stream is open, and once it is granted the session is at
    rest again with the new stream, the previous one being released. *)
Lemma switch_then_settle (B : Browser) (m : Machine) old t :
  Settled m old t ->
  let m1 := step B m ClickSwitch in
  let m2 := step B m1 (Settles 0 true) in
  activeStreams m1 = [] /\
  Settled m2 (old ++ [mkStream [t]]) (nextTrack m).
Proof.
  intros H.
  destruct m as [[a vr cr tm] mo ed cs pe op sc nt el].
  destruct a as [st cf ph ic sg sp fm fa fc il].
  destruct H as [Hmo Hpe Hil Hed Hst Hop Hlive Hold Hcalls Hcl Ht].
  simpl in *. subst mo pe il ed st op.
  assert (Hcalls1 : Forall (fun x => (x < nt)%nat) (stopStream cs sc ++ [t])).
  { apply Forall_app. split; [apply stopStream_fresh; assumption|].
    constructor; [exact Ht | constructor]. }
  assert (Hold1 : Forall (fun s => active (stopStream cs sc ++ [t]) s = false)
                         (old ++ [mkStream [t]])).
  { apply Forall_app. split.
    - eapply Forall_impl; [|exact Hold]. intros s Hs. simpl in Hs.
      apply active_mono, stopStream_mono. exact Hs.
    - constructor; [|constructor].
      unfold active. simpl. rewrite trackStopped_app. simpl.
      rewrite Nat.eqb_refl, orb_true_r. reflexivity. }
  split.
  - destruct fm; simpl; unfold activeStreams; simpl;
      apply filter_none; exact Hold1.
  - destruct fm; simpl; constructor; simpl; try reflexivity; try lia.
    all: try exact Hold1.
    all: try (apply fresh_not_stopped; exact Hcalls1).
    all: try (eapply Forall_impl; [|exact Hcalls1]; simpl; intros; lia).
    all: try (constructor; [lia | constructor]).
Qed.

Lemma run_app (B : Browser) (m : Machine) (es1 es2 : list Event) :
  run B m (es1 ++ es2) = run B (run B m es1) es2.
Proof. unfold run. apply fold_left_app. Qed.

Lemma Forall_states_app (B : Browser) (P : Machine -> Prop) (es1 es2 : list Event) :
  forall m,
    Forall P (states B m es1) -> Forall P (states B (run B m es1) es2) ->
    Forall P (states B m (es1 ++ es2)).
Proof.
  induction es1 as [|e es1 IH]; intros m H1 H2.
  - exact H2.
  - simpl in *. inversion H1 as [|? ? Hm Hrest]; subst.
    constructor; [exact Hm|]. apply IH; assumption.
Qed.

Lemma settledSwitches_S (n : nat) :
  settledSwitches (S n) = settledSwitches n ++ [ClickSwitch; Settles 0 true].
Proof.
  unfold settledSwitches.
  change (S n) with (1 + n)%nat.
  rewrite Nat.add_comm, repeat_app, concat_app. reflexivity.
Qed.

(** After the mount and any number of switches, each one waited for, the
    session is at rest and no state on the way had two streams open. *)
Lemma settledSwitches_invariant (B : Browser) (n : nat) :
  exists old t,
    Settled (run B init (settledSwitches n)) old t /\
    List.length old = n /\
    Forall (fun m => (List.length (activeStreams m) <= 1)%nat)
           (states B init (settledSwitches n)).
Proof.
  induction n as [|n (old & t & Hs & Hlen & Hall)].
  - exists [], 0%nat. split; [|split].
    + constructor; simpl; try reflexivity; try lia; constructor.
    + reflexivity.
    + repeat constructor.
  - rewrite settledSwitches_S, run_app.
    destruct (switch_then_settle B _ old t Hs) as [Hgap Hs'].
    exists (old ++ [mkStream [t]]), (nextTrack (run B init (settledSwitches n))).
    split; [exact Hs'|]. split; [rewrite length_app; simpl; lia|].
    apply Forall_states_app; [exact Hall|].
    cbn [states]. constructor; [|constructor; [|constructor; [|constructor]]].
    + rewrite (proj1 (settled_streams _ _ _ Hs)). simpl. lia.
    + rewrite Hgap. simpl. lia.
    + rewrite (proj1 (settled_streams _ _ _ Hs')). simpl. lia.
Qed.

(** C9, as amended.  The session mounts with the back camera and the user
    switches [n] times, each switch made once the camera of the previous
    one has been granted ([n] = 2 is back, front, back; the last two of
    [n] = 3 are front, back, front).  Then no state on the way has more
    than one stream open, at the end exactly the stream held in the state
    is open, [n] + 1 streams have been handed out and the [n] earlier ones
    have been released: the released handles are one fewer than the
    acquired ones.  Handles are counted, not calls of [stop]. *)
Theorem C9_one_handle_after_settled_switches (B : Browser) (n : nat) :
  let m := run B init (settledSwitches n) in
  Forall (fun m' => (List.length (activeStreams m') <= 1)%nat)
         (states B init (settledSwitches n)) /\
  (exists s, stream (app (sys m)) = Some s /\ activeStreams m = [s]) /\
  acquireCount m = S n /\
  releaseCount m = n /\
  releaseCount m = (acquireCount m - 1)%nat.
Proof.
  intros m.
  destruct (settledSwitches_invariant B n) as (old & t & Hs & Hlen & Hall).
  fold m in Hs.
  destruct (settled_streams m old t Hs) as [Hact Hrel].
  assert (Hacq : acquireCount m = S n).
  { unfold acquireCount. rewrite (settled_opened _ _ _ Hs), length_app. simpl. lia. }
  assert (Hrc : releaseCount m = n).
  { unfold releaseCount. rewrite Hrel. exact Hlen. }
  split; [exact Hall|].
  split; [exists (mkStream [t]); split; [exact (settled_stream _ _ _ Hs) | exact Hact]|].
  split; [exact Hacq|]. split; [exact Hrc|]. lia.
Qed.

(** C9 as worded fails: right after the first switch the old stream has
    been stopped and the new one has not been granted, so no stream at
    all is open. *)
Lemma C9_counterexample :
  List.length (activeStreams
                 (run demoBrowser init [Mount; Settles 0 true; ClickSwitch])) = 0%nat /\
  ~ exactlyOneOutstanding demoBrowser (settledSwitches 2).
Proof.
  assert (E : List.length (activeStreams
                (run demoBrowser init (firstn 3 (settledSwitches 2)))) = 0%nat).
  { vm_compute. reflexivity. }
  split; [exact E|].
  intros H. specialize (H 3%nat).
  rewrite E in H.
  assert (Hk : (2 <= 3 <= List.length (settledSwitches 2))%nat) by (simpl; lia).
  specialize (H Hk). discriminate.
Qed.

(** The stream the first switch asked for is never stopped when the second
    switch comes before it is granted: [startCamera] stops the stream of
    its own render, which by then is still the first one. *)
Lemma overlapping_switches_leave_two_streams :
  let m := run demoBrowser init
             [Mount; Settles 0 true; ClickSwitch; ClickSwitch;
              Settles 0 true; Settles 0 true] in
  activeStreams m = [mkStream [1%nat]; mkStream [2%nat]] /\
  stream (app (sys m)) = Some (mkStream [2%nat]) /\
  acquireCount m = 3%nat /\ releaseCount m = 1%nat.
Proof. vm_compute. repeat split. Qed.

(** With every switch waited for, the first stream is stopped twice: by
    [startCamera] at the first switch and by the cleanup at the second. *)
Lemma settled_switches_stop_calls :
  stopCalls (run demoBrowser init (settledSwitches 2)) = [0%nat; 0%nat; 1%nat].
Proof. vm_compute. reflexivity. Qed.

(** ** The session end to end *)

(** The stream that is granted never reaches the [<video>]: while
    [startCamera] waits, [isLoading] is set and the element is not
    rendered, so [videoRef.current] is null when the promise settles. *)
Lemma granted_stream_not_attached :
  let m := run demoBrowser init [Mount; Settles 0 true] in
  stream (app (sys m)) = Some (mkStream [0%nat]) /\
  option_map srcObject (videoRef (sys m)) = Some None.
Proof. vm_compute. split; reflexivity. Qed.

(** A fresh session: the camera is granted, [noir] is picked, the shutter
    is pressed once. *)
Lemma fresh_session_noir :
  let m := run demoBrowser init
             [Mount; Settles 0 true; ClickFilter noir; ClickShutter 1000 1001] in
  map filter (photos (app (sys m))) = [noir] /\
  map id (photos (app (sys m))) = ["1000"] /\
  filmCount (app (sys m)) = 23 /\
  facingMode (app (sys m)) = environment.
Proof. vm_compute. repeat split. Qed.

(** * Further properties of the component *)

(** ** A capture without a drawing context *)

(** When [getContext('2d')] yields nothing, [capturePhoto] has already set
    [isCapturing] and returns before the callback that clears it is
    scheduled: no Photo, the counter as it was, only the flash callback
    added.  Unless an earlier capture left its callback pending, the flag
    then survives every callback there is, and the shutter stays
    disabled. *)
Theorem capture_without_context_sticks (B : Browser) (d e : Z) (w : Sys)
    (v : HTMLVideoElement) (c : HTMLCanvasElement) :
  videoRef w = Some v -> canvasRef w = Some c -> has2d c = false ->
  0 < filmCount (app w) ->
  let w1 := capturePhoto B d e w in
  photos (app w1) = photos (app w) /\
  filmCount (app w1) = filmCount (app w) /\
  canvasRef w1 = Some c /\
  isCapturing (app w1) = true /\
  timers w1 = timers w ++ [(150, ClearFlash)] /\
  (~ In ClearCapturing (map snd (timers w)) ->
   forall fired : list TimerAction,
     incl fired (map snd (timers w1)) ->
     isCapturing (fold_left (fun s a => runTimer a s) fired (app w1)) = true /\
     shutterDisabled (fold_left (fun s a => runTimer a s) fired (app w1)) = true).
Proof.
  intros Hv Hc H2d Hfilm w1.
  assert (E : w1 = mkSys (setFlashActive true (setIsCapturing true (app w)))
                         (videoRef w) (canvasRef w) (timers w ++ [(150, ClearFlash)])).
  { unfold w1, capturePhoto. rewrite Hv, Hc, H2d.
    destruct (Z.leb_spec (filmCount (app w)) 0); [lia | reflexivity]. }
  rewrite E. simpl.
  split; [reflexivity|]. split; [reflexivity|]. split; [exact Hc|].
  split; [reflexivity|]. split; [reflexivity|].
  intros Hnone fired Hincl.
  assert (Hflash : Forall (fun a => a = ClearFlash) fired).
  { apply Forall_forall. intros a Ha. apply Hincl in Ha.
    rewrite map_app in Ha. apply in_app_or in Ha. destruct Ha as [Ha | [Ha | []]].
    - destruct a; [reflexivity | contradiction].
    - symmetry. exact Ha. }
  assert (Hkeep : forall s, isCapturing s = true ->
            isCapturing (fold_left (fun s a => runTimer a s) fired s) = true).
  { clear Hincl. induction Hflash as [|a l -> _ IH]; intros s Hs; simpl; [exact Hs|].
    apply IH. exact Hs. }
  assert (Hcap := Hkeep (setFlashActive true (setIsCapturing true (app w))) eq_refl).
  split; [exact Hcap|].
  unfold shutterDisabled. rewrite Hcap. reflexivity.
Qed.

Lemma capture_without_context_sticks_witness :
  let c := mkCanvas false 300 150 "none" identityTransform (fun _ _ => transparent) in
  let w := mkSys (setIsLoading false initialState) (Some demoVideo) (Some c) [] in
  (videoRef w = Some demoVideo /\ canvasRef w = Some c /\ has2d c = false /\
   0 < filmCount (app w) /\ ~ In ClearCapturing (map snd (timers w))) /\
  photos (app (capturePhoto demoBrowser 1000 1000 w)) = [] /\
  shutterDisabled (runTimer ClearFlash (app (capturePhoto demoBrowser 1000 1000 w))) = true.
Proof.
  intros c w.
  assert (Hnone : ~ In ClearCapturing (map snd (timers w))) by (intros []).
  split; [repeat split; exact Hnone|].
  destruct (capture_without_context_sticks demoBrowser 1000 1000 w demoVideo c
              eq_refl eq_refl eq_refl eq_refl) as (Hp & _ & _ & _ & _ & Hstuck).
  split; [exact Hp|].
  apply (Hstuck Hnone [ClearFlash]).
  intros a [<- | []]. left. reflexivity.
Defined.

(** ** Saving a Photo *)

Lemma string_length_append (a b : string) :
  String.length (a ++ b)%string = (String.length a + String.length b)%nat.
Proof. induction a as [|ch a IH]; simpl; [reflexivity | rewrite IH; reflexivity]. Qed.

Lemma append_cancel_r (s : string) :
  forall a b : string, (a ++ s)%string = (b ++ s)%string -> a = b.
Proof.
  induction a as [|ch a IH]; destruct b as [|ch' b]; simpl; intros H.
  - reflexivity.
  - apply (f_equal String.length) in H. simpl in H.
    rewrite string_length_append in H. lia.
  - apply (f_equal String.length) in H. simpl in H.
    rewrite string_length_append in H. lia.
  - injection H as -> H. f_equal. apply IH. exact H.
Qed.

(** The file a Photo is saved to carries the Photo's payload, and its name
    tells the capture time: two Photos get the same name exactly when their
    timestamps are equal, whatever their identifiers.  Saving changes
    nothing in the component. *)
Theorem download_name_tells_timestamp (p q : Photo) :
  href (downloadPhoto p) = dataUrl p /\
  (download (downloadPhoto p) = download (downloadPhoto q) <->
   timestamp p = timestamp q) /\
  (forall s, galleryClick SaveButton s = s).
Proof.
  split; [reflexivity|]. split; [|reflexivity].
  split.
  - unfold downloadPhoto. simpl. intros H.
    injection H as H.
    apply append_cancel_r in H. apply toString_inj. exact H.
  - intros H. unfold downloadPhoto. simpl. rewrite H. reflexivity.
Qed.

(** ** The film counter on the top panel *)

(** For a counter between 0 and 24 the display has exactly two characters
    and reads back as the counter. *)
Theorem film_display_two_digits (s : AppState) :
  0 <= filmCount s <= 24 ->
  String.length (filmDisplay s) = 2%nat /\
  option_map Z.of_int (NilEmpty.int_of_string (filmDisplay s)) = Some (filmCount s).
Proof.
  intros H. unfold filmDisplay.
  assert (Hk : exists k : nat, (k <= 24)%nat /\ filmCount s = Z.of_nat k).
  { exists (Z.to_nat (filmCount s)). lia. }
  destruct Hk as (k & Hk & ->).
  do 25 (destruct k as [|k]; [vm_compute; split; reflexivity|]).
  lia.
Qed.

Lemma film_display_two_digits_witness :
  0 <= filmCount (setFilmCount (fun _ => 7) initialState) <= 24 /\
  filmDisplay (setFilmCount (fun _ => 7) initialState) = "07" /\
  String.length (filmDisplay (setFilmCount (fun _ => 7) initialState)) = 2%nat.
Proof.
  assert (H : 0 <= filmCount (setFilmCount (fun _ => 7) initialState) <= 24)
    by (simpl; lia).
  split; [exact H|]. split; [reflexivity|].
  exact (proj1 (film_display_two_digits _ H)).
Defined.

(** ** Preview and capture *)

Lemma catalog_is_total (cf : FilterType) :
  exists F, In F filters /\ name F = cf /\
            find (fun f => FilterType_eqb (name f) cf) filters = Some F /\
            cssOrNone (Some F) = css F.
Proof.
  destruct cf; eexists; (split; [|split; [|split]]);
    try reflexivity; try reflexivity; simpl; tauto.
Qed.

(** Every filter that can be selected has its entry in the catalog, so
    the viewfinder and the capture use the same CSS string, the fallback
    ['none'] of [capturePhoto] is never taken, and the label of a Photo is
    always found.  The capture is mirrored exactly when the viewfinder
    is. *)
Theorem preview_matches_capture (B : Browser) (s : AppState)
    (v : HTMLVideoElement) (c : HTMLCanvasElement) :
  let drawn := renderFrame B (currentFilter s) (facingMode s) v c in
  (exists F, In F filters /\ name F = currentFilter s /\
             currentFilterObj s = Some F /\
             previewFilter s = Some (css F) /\
             ctxFilter drawn = css F) /\
  sx (ctxTransform drawn) = (if previewMirrored s then -1 else 1) /\
  sy (ctxTransform drawn) = 1 /\
  (forall p : Photo, exists F, In F filters /\ name F = filter p /\
                               photoLabel p = Some (label F)).
Proof.
  intros drawn. split; [|split; [|split]].
  - destruct (catalog_is_total (currentFilter s)) as (F & HF & Hn & Hfind & Hcss).
    exists F. split; [exact HF|]. split; [exact Hn|].
    unfold drawn, previewFilter, currentFilterObj.
    rewrite ctxFilter_renderFrame, Hfind.
    split; [reflexivity|]. split; [reflexivity | exact Hcss].
  - unfold drawn, previewMirrored. destruct (facingMode s); reflexivity.
  - unfold drawn. destruct (facingMode s); reflexivity.
  - intros p. unfold photoLabel.
    destruct (catalog_is_total (filter p)) as (F & HF & Hn & Hfind & _).
    exists F. split; [exact HF|]. split; [exact Hn|].
    rewrite Hfind. reflexivity.
Qed.

(** What a capture draws depends on the frame, the filter and the facing
    mode only: assigning the size of the canvas wipes what an earlier
    capture left, its pixels and its mirroring alike.  So the payload of a
    capture is the same whether or not another capture came before it. *)
Theorem capture_payload_ignores_earlier_captures (B : Browser) (w : Sys)
    (v : HTMLVideoElement) (c : HTMLCanvasElement) (d1 e1 d2 e2 : Z) :
  videoRef w = Some v -> canvasRef w = Some c -> has2d c = true ->
  2 <= filmCount (app w) ->
  (forall cf fm c', Canvas2D.rows (renderFrame B cf fm v c') =
                    Canvas2D.rows (renderFrame B cf fm v c)) /\
  map dataUrl (firstn 1 (photos (app (capturePhoto B d2 e2 (capturePhoto B d1 e1 w))))) =
  map dataUrl (firstn 1 (photos (app (capturePhoto B d2 e2 w)))).
Proof.
  intros Hv Hc H2d Hfilm.
  assert (Hrows : forall cf fm c', Canvas2D.rows (renderFrame B cf fm v c') =
                                   Canvas2D.rows (renderFrame B cf fm v c)).
  { intros cf fm c'. destruct fm; reflexivity. }
  split; [exact Hrows|].
  pose proof (capturePhoto_success B d1 e1 w v c Hv Hc H2d ltac:(lia)) as E1.
  cbv zeta in E1.
  set (w1 := capturePhoto B d1 e1 w) in *.
  set (c1 := renderFrame B (currentFilter (app w)) (facingMode (app w)) v c) in E1.
  assert (Hv1 : videoRef w1 = Some v) by (rewrite E1; reflexivity).
  assert (Hc1 : canvasRef w1 = Some c1) by (rewrite E1; reflexivity).
  assert (H2d1 : has2d c1 = true) by (unfold c1; rewrite has2d_renderFrame; exact H2d).
  assert (Hf1 : filmCount (app w1) = filmCount (app w) - 1) by (rewrite E1; reflexivity).
  assert (Hcf : currentFilter (app w1) = currentFilter (app w)) by (rewrite E1; reflexivity).
  assert (Hfm : facingMode (app w1) = facingMode (app w)) by (rewrite E1; reflexivity).
  rewrite (capturePhoto_success B d2 e2 w1 v c1 Hv1 Hc1 H2d1 ltac:(lia)).
  rewrite (capturePhoto_success B d2 e2 w v c Hv Hc H2d ltac:(lia)).
  cbv zeta. simpl. unfold toDataURL. rewrite Hcf, Hfm, (Hrows _ _ c1). reflexivity.
Qed.

Lemma capture_payload_ignores_earlier_captures_witness :
  (videoRef demoSys = Some demoVideo /\ canvasRef demoSys = Some freshCanvas /\
   has2d freshCanvas = true /\ 2 <= filmCount (app demoSys)) /\
  map dataUrl (firstn 1 (photos (app (capturePhoto demoBrowser 2000 2000
                                        (capturePhoto demoBrowser 1000 1000 demoSys))))) =
  map dataUrl (firstn 1 (photos (app (capturePhoto demoBrowser 2000 2000 demoSys)))).
Proof.
  split; [repeat split; discriminate|].
  apply (capture_payload_ignores_earlier_captures demoBrowser demoSys demoVideo freshCanvas
           1000 1000 2000 2000 eq_refl eq_refl eq_refl).
  discriminate.
Defined.

(** ** The shutter from one capture to the next *)

(** After a capture through the button and its two callbacks, the flash
    is off and [isCapturing] is cleared; the shutter is then disabled
    exactly when that capture used the last exposure, and any deletion
    enables it again. *)
Theorem shutter_cycle (B : Browser) (d e : Z) (w : Sys)
    (v : HTMLVideoElement) (c : HTMLCanvasElement) :
  videoRef w = Some v -> canvasRef w = Some c -> has2d c = true ->
  shutterDisabled (app w) = false ->
  let w1 := shutterClick B d e w in
  let s2 := runTimer ClearCapturing (runTimer ClearFlash (app w1)) in
  shutterDisabled (app w1) = true /\
  flashActive s2 = false /\ isCapturing s2 = false /\
  filmCount s2 = filmCount (app w) - 1 /\
  (shutterDisabled s2 = true <-> filmCount (app w) = 1) /\
  (forall photoId, shutterDisabled (deletePhoto photoId s2) = false).
Proof.
  intros Hv Hc H2d Hen w1 s2.
  pose proof Hen as Hen'. unfold shutterDisabled in Hen'.
  apply orb_false_iff in Hen'. destruct Hen' as [Hen' Hload].
  apply orb_false_iff in Hen'. destruct Hen' as [_ Hfilm].
  apply Z.leb_gt in Hfilm.
  assert (E : w1 = capturePhoto B d e w).
  { unfold w1, shutterClick. rewrite Hen. reflexivity. }
  rewrite (capturePhoto_success B d e w v c Hv Hc H2d Hfilm) in E. cbv zeta in E.
  unfold s2. rewrite E. unfold shutterDisabled. simpl. rewrite Hload.
  split; [reflexivity|]. split; [reflexivity|]. split; [reflexivity|].
  split; [reflexivity|]. split.
  - rewrite orb_false_r. rewrite Z.leb_le. lia.
  - intros _. rewrite orb_false_r. apply Z.leb_gt. lia.
Qed.

Lemma shutter_cycle_witness :
  let w := onApp (setFilmCount (fun _ => 1)) demoSys in
  (videoRef w = Some demoVideo /\ canvasRef w = Some freshCanvas /\
   has2d freshCanvas = true /\ shutterDisabled (app w) = false) /\
  let s2 := runTimer ClearCapturing
              (runTimer ClearFlash (app (shutterClick demoBrowser 1000 1000 w))) in
  shutterDisabled s2 = true /\
  shutterDisabled (deletePhoto "1000" s2) = false.
Proof.
  intros w. split; [repeat split|].
  destruct (shutter_cycle demoBrowser 1000 1000 w demoVideo freshCanvas
              eq_refl eq_refl eq_refl eq_refl) as (_ & _ & _ & _ & Hlast & Hdel).
  split; [apply Hlast; reflexivity | apply Hdel].
Defined.

(** ** The gallery and the counter through every input *)

Lemma galleryView_eq (s s' : AppState) :
  galleryView s' = galleryView s ->
  photos s' = photos s /\ filmCount s' = filmCount s /\
  selectedPhoto s' = selectedPhoto s.
Proof. unfold galleryView. intros H. injection H as H1 H2 H3. auto. Qed.

(** A render changes nothing the gallery lives in. *)
Lemma commit_gallery (m : Machine) :
  galleryView (app (sys (commit m))) = galleryView (app (sys m)).
Proof.
  destruct m as [[a vr cr tm] mo ed cs pe op sc nt el].
  destruct a as [st cf ph ic sg sp fm fa fc il].
  unfold commit, runEffect. simpl.
  destruct ed as [dep|]; [destruct (FacingMode_eqb dep fm)|]; reflexivity.
Qed.

(** What a call of [capturePhoto] does to the gallery, the counter and
    the selection. *)
Lemma capturePhoto_cases (B : Browser) d e w :
  galleryView (app (capturePhoto B d e w)) = galleryView (app w) \/
  (exists url,
     0 < filmCount (app w) /\
     galleryView (app (capturePhoto B d e w)) =
       (mkPhoto (toString d) url (currentFilter (app w)) e :: photos (app w),
        filmCount (app w) - 1, selectedPhoto (app w))).
Proof.
  unfold capturePhoto.
  destruct (videoRef w) as [v|]; [|left; reflexivity].
  destruct (canvasRef w) as [c|]; [|left; reflexivity].
  destruct (Z.leb_spec (filmCount (app w)) 0) as [Hle | Hgt]; [left; reflexivity|].
  destruct (has2d c); simpl.
  - right. eexists. split; [exact Hgt | reflexivity].
  - left. reflexivity.
Qed.

(** An event of the session leaves the gallery alone unless it is a press
    of the shutter, which acts as [capturePhoto] or not at all. *)
Lemma step_gallery (B : Browser) (m : Machine) (ev : Event) :
  galleryView (app (sys (step B m ev))) = galleryView (app (sys m)) \/
  (exists d e, ev = ClickShutter d e /\
     galleryView (app (sys (step B m ev))) =
       galleryView (app (capturePhoto B d e (sys m)))).
Proof.
  destruct ev as [ | | d e | f | n | n granted | ]; unfold step; cbv beta iota.
  - left. destruct (mounted m); [reflexivity|]. rewrite commit_gallery. reflexivity.
  - left. destruct (mounted m); cbn [negb]; [|reflexivity].
    rewrite commit_gallery. reflexivity.
  - destruct (mounted m); cbn [negb]; [|left; reflexivity].
    rewrite commit_gallery. unfold withSys. cbn [sys]. unfold shutterClick.
    destruct (shutterDisabled (app (sys m))); [left; reflexivity|].
    right. exists d, e. split; reflexivity.
  - left. destruct (mounted m); cbn [negb]; [|reflexivity].
    rewrite commit_gallery. reflexivity.
  - left. destruct (mounted m); cbn [negb]; [|reflexivity].
    destruct (nth_error (timers (sys m)) n) as [[delay a]|]; [|reflexivity].
    rewrite commit_gallery. destruct a; reflexivity.
  - left. destruct (nth_error (pending m) n); [|reflexivity].
    destruct (mounted m).
    + rewrite commit_gallery. unfold resumeStartCamera. cbn [mounted sys].
      destruct granted; reflexivity.
    + unfold resumeStartCamera. cbn [mounted sys].
      destruct granted; reflexivity.
  - left. destruct (mounted m); reflexivity.
Qed.

(** Any input acts on the gallery as its handler does, or not at all. *)
Lemma interact_gallery (B : Browser) (m : Machine) (i : Input) :
  galleryView (app (sys (interact B m i))) = galleryView (app (sys m)) \/
  (exists d e, i = Session (ClickShutter d e) /\
     galleryView (app (sys (interact B m i))) =
       galleryView (app (capturePhoto B d e (sys m)))) \/
  ((forall ev, i <> Session ev) /\
   galleryView (app (sys (interact B m i))) =
     galleryView (galleryClick i (app (sys m)))).
Proof.
  destruct i as [ev | | | n | | | ].
  1: { destruct (step_gallery B m ev) as [H | (d & e & -> & H)].
       - left. exact H.
       - right. left. exists d, e. split; [reflexivity | exact H]. }
  all: unfold interact; destruct (mounted m); [|left; reflexivity].
  all: right; right; split; [discriminate|].
  all: rewrite commit_gallery; reflexivity.
Qed.

Lemma GalleryInv_view (s s' : AppState) :
  galleryView s' = galleryView s -> GalleryInv s -> GalleryInv s'.
Proof.
  intros H [H1 H2 H3 H4]. apply galleryView_eq in H. destruct H as (Ep & Ef & Es).
  constructor; rewrite ?Ep, ?Ef, ?Es; assumption.
Qed.

Lemma GalleryInv_capture (B : Browser) d e w :
  GalleryInv (app w) -> GalleryInv (app (capturePhoto B d e w)).
Proof.
  intros Hinv.
  destruct (capturePhoto_cases B d e w) as [H | (url & Hfilm & H)].
  - exact (GalleryInv_view _ _ H Hinv).
  - destruct Hinv as [H1 H2 H3 H4].
    unfold galleryView in H. injection H as Ep Ef Es.
    constructor; rewrite ?Ep, ?Ef, ?Es.
    + lia.
    + lia.
    + simpl List.length. lia.
    + intros p Hp. right. apply H4. exact Hp.
Qed.

Lemma GalleryInv_click (i : Input) (s : AppState) :
  GalleryInv s -> GalleryInv (galleryClick i s).
Proof.
  intros Hinv. pose proof Hinv as [H1 H2 H3 H4].
  destruct i as [ev | | | n | | | ]; simpl.
  - exact Hinv.
  - destruct (List.length (photos s) =? 0)%nat; [exact Hinv|].
    constructor; simpl; assumption.
  - destruct (showGallery s); [|exact Hinv].
    constructor; simpl; assumption.
  - destruct (showGallery s); [|exact Hinv].
    destruct (nth_error (photos s) n) as [photo|] eqn:Hn; [|exact Hinv].
    constructor; simpl; try assumption.
    intros p [= <-]. eapply nth_error_In. exact Hn.
  - destruct (selectedPhoto s); [|exact Hinv].
    constructor; simpl; try assumption. discriminate.
  - exact Hinv.
  - destruct (selectedPhoto s) as [photo|] eqn:Hsel; [|exact Hinv].
    specialize (H4 photo eq_refl).
    assert (Hlen : (List.length (photos (deletePhoto (id photo) s))
                    < List.length (photos s))%nat).
    { rewrite deletePhoto_photos.
      apply filter_length_lt with (x := photo); [exact H4|].
      rewrite String.eqb_refl. reflexivity. }
    constructor.
    + rewrite deletePhoto_filmCount. lia.
    + rewrite deletePhoto_filmCount. lia.
    + rewrite deletePhoto_filmCount. lia.
    + simpl. discriminate.
Qed.

Lemma GalleryInv_interact (B : Browser) (m : Machine) (i : Input) :
  GalleryInv (app (sys m)) -> GalleryInv (app (sys (interact B m i))).
Proof.
  intros Hinv.
  destruct (interact_gallery B m i) as [H | [(d & e & _ & H) | (_ & H)]].
  - exact (GalleryInv_view _ _ H Hinv).
  - apply (GalleryInv_view _ _ H). apply GalleryInv_capture. exact Hinv.
  - apply (GalleryInv_view _ _ H). apply GalleryInv_click. exact Hinv.
Qed.

Lemma GalleryInv_run (B : Browser) (l : list Input) :
  GalleryInv (app (sys (fold_left (interact B) l init))).
Proof.
  assert (Hrun : forall l m, GalleryInv (app (sys m)) ->
                             GalleryInv (app (sys (fold_left (interact B) l m)))).
  { clear l. induction l as [|i l IH]; intros m Hm; simpl; [exact Hm|].
    apply IH. apply GalleryInv_interact. exact Hm. }
  apply Hrun. constructor; simpl; try lia. discriminate.
Qed.

(** Whatever the user does and whatever the camera and the clock answer,
    the counter stays between 0 and 24, the Photos in the gallery and the
    exposures left never add up to more than 24 (so the gallery never
    holds more than 24 Photos), and the Photo shown in the modal is one of
    the gallery. *)
Theorem gallery_never_exceeds_film (B : Browser) (l : list Input) :
  let s := app (sys (fold_left (interact B) l init)) in
  0 <= filmCount s <= 24 /\
  filmCount s + Z.of_nat (List.length (photos s)) <= 24 /\
  (List.length (photos s) <= 24)%nat /\
  (forall p, selectedPhoto s = Some p -> In p (photos s)).
Proof.
  destruct (GalleryInv_run B l) as [H1 H2 H3 H4].
  cbv zeta. repeat split; try assumption. lia.
Qed.

(** With identifiers all different, deleting by the identifier of a Photo
    of the gallery removes exactly that one. *)
Lemma filter_out_one (g : list Photo) (p : Photo) :
  NoDup (map id g) -> In p g ->
  S (List.length (List.filter (fun q => negb (String.eqb (id q) (id p))) g))
    = List.length g.
Proof.
  induction g as [|a g IH]; simpl; [tauto|].
  intros Hnd Hin. inversion Hnd as [|? ? Hnotin Hnd']; subst.
  destruct (String.eqb_spec (id a) (id p)) as [E | N]; simpl.
  - f_equal. f_equal. apply filter_all. apply Forall_forall.
    intros q Hq. apply negb_true_iff. apply String.eqb_neq.
    intros Eq. apply Hnotin. rewrite E, <- Eq. apply in_map. exact Hq.
  - f_equal. apply IH; [exact Hnd'|].
    destruct Hin as [-> | Hin]; [congruence | exact Hin].
Qed.

Lemma Conserved_view (s s' : AppState) (zs : list Z) :
  galleryView s' = galleryView s -> Conserved s zs -> Conserved s' zs.
Proof.
  intros H [H1 H2 H3 H4]. apply galleryView_eq in H. destruct H as (Ep & Ef & Es).
  constructor; rewrite ?Ep, ?Ef, ?Es; assumption.
Qed.

Lemma Conserved_capture (B : Browser) d e w zs :
  Conserved (app w) zs -> Forall (fun z => z < d) zs ->
  exists zs', Conserved (app (capturePhoto B d e w)) zs' /\ incl zs' (d :: zs).
Proof.
  intros Hc Hbelow.
  destruct (capturePhoto_cases B d e w) as [H | (url & _ & H)].
  - exists zs. split; [exact (Conserved_view _ _ _ H Hc)|].
    intros x Hx. right. exact Hx.
  - exists (d :: zs). split; [|apply incl_refl].
    destruct Hc as [H1 H2 H3 H4].
    unfold galleryView in H. injection H as Ep Ef Es.
    constructor; rewrite ?Ep, ?Ef, ?Es.
    + simpl. rewrite H1. reflexivity.
    + constructor; [exact H2|].
      eapply Forall_impl; [|exact Hbelow]. simpl. intros; lia.
    + simpl List.length. lia.
    + intros p Hp. right. apply H4. exact Hp.
Qed.

Lemma Conserved_click (i : Input) (s : AppState) (zs : list Z) :
  Conserved s zs ->
  exists zs', Conserved (galleryClick i s) zs' /\ incl zs' zs.
Proof.
  intros Hc. pose proof Hc as [H1 H2 H3 H4].
  assert (Hsame : exists zs', Conserved s zs' /\ incl zs' zs).
  { exists zs. split; [exact Hc | apply incl_refl]. }
  destruct i as [ev | | | n | | | ]; simpl.
  - exact Hsame.
  - destruct (List.length (photos s) =? 0)%nat; [exact Hsame|].
    exists zs. split; [constructor; simpl; assumption | apply incl_refl].
  - destruct (showGallery s); [|exact Hsame].
    exists zs. split; [constructor; simpl; assumption | apply incl_refl].
  - destruct (showGallery s); [|exact Hsame].
    destruct (nth_error (photos s) n) as [photo|] eqn:Hn; [|exact Hsame].
    exists zs. split; [|apply incl_refl].
    constructor; simpl; try assumption.
    intros p [= <-]. eapply nth_error_In. exact Hn.
  - destruct (selectedPhoto s); [|exact Hsame].
    exists zs. split; [|apply incl_refl].
    constructor; simpl; try assumption. discriminate.
  - exact Hsame.
  - destruct (selectedPhoto s) as [photo|] eqn:Hsel; [|exact Hsame].
    specialize (H4 photo eq_refl).
    destruct (filter_ids (fun q => negb (String.eqb (id q) (id photo))) (photos s) zs H1)
      as (zs1 & Hm1 & Hincl & Hs1).
    assert (Hnd : NoDup (map id (photos s))).
    { rewrite H1. apply sorted_ids_NoDup. exact H2. }
    pose proof (filter_out_one (photos s) photo Hnd H4) as Hlen.
    exists zs1. split; [|exact Hincl].
    constructor.
    + exact Hm1.
    + apply Hs1. exact H2.
    + rewrite deletePhoto_filmCount, deletePhoto_photos. lia.
    + simpl. discriminate.
Qed.

Lemma inputReadings_cons (i : Input) (l : list Input) :
  exists pre, inputReadings (i :: l) = pre ++ inputReadings l /\
              (pre = [] \/ exists d e, i = Session (ClickShutter d e) /\ pre = [d]).
Proof.
  destruct i as [ev | | | n | | | ]; try (exists []; split; [reflexivity | left; reflexivity]).
  destruct ev as [ | | d e | f | n | n granted | ];
    try (exists []; split; [reflexivity | left; reflexivity]).
  exists [d]. split; [reflexivity|]. right. exists d, e. split; reflexivity.
Qed.

Lemma Conserved_run (B : Browser) (l : list Input) :
  forall (m : Machine) (zs : list Z),
    Conserved (app (sys m)) zs ->
    StronglySorted Z.lt (inputReadings l) ->
    Forall (fun z => Forall (fun d => z < d) (inputReadings l)) zs ->
    exists zs', Conserved (app (sys (fold_left (interact B) l m))) zs'.
Proof.
  induction l as [|i l IH]; intros m zs Hc Hsort Hbelow.
  - exists zs. exact Hc.
  - simpl fold_left.
    destruct (inputReadings_cons i l) as (pre & Epre & Hpre).
    rewrite Epre in Hsort, Hbelow.
    assert (Hsort' : StronglySorted Z.lt (inputReadings l)).
    { destruct Hpre as [-> | (d & e & _ & ->)]; [exact Hsort|].
      inversion Hsort; assumption. }
    assert (Hbelow' : Forall (fun z => Forall (fun d => z < d) (inputReadings l)) zs).
    { eapply Forall_impl; [|exact Hbelow]. intros z Hz.
      apply Forall_app in Hz. tauto. }
    destruct (interact_gallery B m i) as [H | [(d & e & Ei & H) | (Hns & H)]].
    + apply (IH _ zs); [|exact Hsort' | exact Hbelow'].
      exact (Conserved_view _ _ _ H Hc).
    + destruct Hpre as [-> | (d' & e' & Ei' & ->)].
      { subst i. simpl in Epre.
        apply (f_equal (@List.length Z)) in Epre. simpl in Epre. lia. }
      rewrite Ei in Ei'. injection Ei' as <- <-.
      assert (Hd : Forall (fun z => z < d) zs).
      { eapply Forall_impl; [|exact Hbelow]. intros z Hz.
        inversion Hz; assumption. }
      destruct (Conserved_capture B d e (sys m) zs Hc Hd) as (zs1 & Hc1 & Hincl).
      apply (IH _ zs1); [|exact Hsort'|].
      * exact (Conserved_view _ _ _ H Hc1).
      * apply Forall_forall. intros z Hz. apply Hincl in Hz.
        destruct Hz as [<- | Hz].
        -- inversion Hsort; assumption.
        -- rewrite Forall_forall in Hbelow'. apply Hbelow'. exact Hz.
    + destruct (Conserved_click i (app (sys m)) zs Hc) as (zs1 & Hc1 & Hincl).
      apply (IH _ zs1); [|exact Hsort'|].
      * exact (Conserved_view _ _ _ H Hc1).
      * apply Forall_forall. intros z Hz.
        rewrite Forall_forall in Hbelow'. apply Hbelow', Hincl, Hz.
Qed.

(** As long as every press of the shutter reads a later [Date.now()] than
    the presses before it, exposures are conserved through everything the
    user can do: the Photos in the gallery and the exposures left always
    add up to exactly 24, and no two Photos share an identifier.  The
    delete button then always removes one Photo and returns one exposure. *)
Theorem film_conserved_while_clock_advances (B : Browser) (l : list Input) :
  StronglySorted Z.lt (inputReadings l) ->
  let s := app (sys (fold_left (interact B) l init)) in
  filmCount s + Z.of_nat (List.length (photos s)) = 24 /\
  NoDup (map id (photos s)) /\
  (forall p, selectedPhoto s = Some p ->
     S (List.length (photos (galleryClick DeleteButton s))) = List.length (photos s) /\
     filmCount (galleryClick DeleteButton s) = filmCount s + 1).
Proof.
  intros Hsort. cbv zeta.
  destruct (Conserved_run B l init []) as (zs & Hc).
  - constructor; simpl; try reflexivity; [constructor | discriminate].
  - exact Hsort.
  - constructor.
  - destruct Hc as [H1 H2 H3 H4].
    assert (Hnd : NoDup (map id (photos (app (sys (fold_left (interact B) l init)))))).
    { rewrite H1. apply sorted_ids_NoDup. exact H2. }
    split; [exact H3|]. split; [exact Hnd|].
    intros p Hp. simpl. rewrite Hp.
    pose proof (filter_out_one _ p Hnd (H4 p Hp)) as Hlen.
    split.
    + rewrite deletePhoto_photos. exact Hlen.
    + rewrite deletePhoto_filmCount. lia.
Qed.

Lemma film_conserved_while_clock_advances_witness :
  let l := [Session Mount; Session (Settles 0 true);
            Session (ClickShutter 1000 1000);
            Session (TimerFires 0); Session (TimerFires 0);
            Session (ClickShutter 1400 1401);
            GalleryButton; GalleryItem 1; DeleteButton] in
  StronglySorted Z.lt (inputReadings l) /\
  map id (photos (app (sys (fold_left (interact demoBrowser) l init)))) = ["1400"] /\
  filmCount (app (sys (fold_left (interact demoBrowser) l init))) +
    Z.of_nat (List.length (photos (app (sys (fold_left (interact demoBrowser) l init))))) = 24.
Proof.
  intros l.
  assert (Hs : StronglySorted Z.lt (inputReadings l)).
  { vm_compute. repeat constructor. }
  split; [exact Hs|]. split; [vm_compute; reflexivity|].
  exact (proj1 (film_conserved_while_clock_advances demoBrowser l Hs)).
Defined.

(** ** The camera session in more detail *)

(** The session after the mount and [n] switches, each one waited for: the
    state holds the stream of track [n], nothing has been captured, the
    [<video>] is a new element without a stream, and the pending cleanup
    holds an older stream if any. *)
Lemma settled_shape (B : Browser) (n : nat) :
  exists cs op sc,
    run B init (settledSwitches n) =
      mkMachine
        (mkSys (mkApp (Some (mkStream [n])) vintage [] false false None
                      (facingAfter n) false 24 false)
               (Some freshVideo) (Some freshCanvas) [])
        true (Some (facingAfter n)) cs [] op sc (S n) 0%nat /\
    match cs with
    | Some s => Forall (fun x => (x < n)%nat) (getTracks s)
    | None => True
    end.
Proof.
  induction n as [|n (cs & op & sc & IH & Hcs)].
  - exists None, [mkStream [0%nat]], []. split; [reflexivity | exact I].
  - rewrite settledSwitches_S, run_app, IH.
    cbn [facingAfter]. destruct (facingAfter n); simpl.
    + eexists _, _, _. split; [reflexivity|]. simpl. constructor; [lia | constructor].
    + eexists _, _, _. split; [reflexivity|]. simpl. constructor; [lia | constructor].
Qed.

Lemma settled_facts (B : Browser) (n : nat) :
  exists cs old sc,
    run B init (settledSwitches n) =
      mkMachine
        (mkSys (mkApp (Some (mkStream [n])) vintage [] false false None
                      (facingAfter n) false 24 false)
               (Some freshVideo) (Some freshCanvas) [])
        true (Some (facingAfter n)) cs [] (old ++ [mkStream [n]]) sc (S n) 0%nat /\
    match cs with
    | Some s => Forall (fun x => (x < n)%nat) (getTracks s)
    | None => True
    end /\
    trackStopped sc n = false /\
    Forall (fun s => active sc s = false) old /\
    Forall (fun x => (x < S n)%nat) sc /\
    List.length old = n.
Proof.
  destruct (settled_shape B n) as (cs & op & sc & Em & Hcs).
  destruct (settledSwitches_invariant B n) as (old & t & Hs & Hlen & _).
  rewrite Em in Hs. destruct Hs as [_ _ _ _ Hst Hop Hlive Hold Hcalls _ _].
  simpl in *. injection Hst as <-. subst op.
  exists cs, old, sc. repeat split; assumption.
Qed.

Lemma not_in_not_stopped (l : list Track) (t : Track) :
  ~ In t l -> trackStopped l t = false.
Proof.
  unfold trackStopped. induction l as [|x l IH]; simpl; [reflexivity|].
  intros H. rewrite IH by tauto.
  destruct (Nat.eqb_spec t x); [subst; tauto | reflexivity].
Qed.

Lemma stopStream_not_stopped (o : option MediaStream) (calls : list Track) (t : Track) :
  trackStopped calls t = false ->
  (forall s, o = Some s -> ~ In t (getTracks s)) ->
  trackStopped (stopStream o calls) t = false.
Proof.
  intros Hc Ho. destruct o as [s|]; simpl; [|exact Hc].
  rewrite trackStopped_app, Hc. simpl.
  apply not_in_not_stopped. apply Ho. reflexivity.
Qed.

Lemma below_not_in (l : list Track) (n : Track) :
  Forall (fun x => (x < n)%nat) l -> ~ In n l.
Proof.
  intros H Hin. rewrite Forall_forall in H. specialize (H n Hin). lia.
Qed.

(** The camera stays on when the component goes away.  The cleanup of the
    effect stops the stream of the render in which the effect last ran,
    which is never the one in use: after the mount and any number of
    switches, each one waited for, unmounting leaves the stream of the
    state open, and no later event (short of a new mount) changes
    anything. *)
Theorem unmount_leaves_camera_on (B : Browser) (n : nat) :
  let m := run B init (settledSwitches n ++ [Unmount]) in
  stream (app (sys m)) = Some (mkStream [n]) /\
  activeStreams m = [mkStream [n]] /\
  releaseCount m = (acquireCount m - 1)%nat /\
  (forall es, Forall (fun ev => ev <> Mount) es -> run B m es = m).
Proof.
  destruct (settled_facts B n) as (cs & old & sc & Em & Hcs & Hlive & Hold & Hcalls & Hlen).
  cbv zeta. rewrite run_app, Em. unfold run at 1 3 4 5. simpl fold_left.
  assert (Hlive' : trackStopped (stopStream cs sc) n = false).
  { apply stopStream_not_stopped; [exact Hlive|].
    intros s ->. apply below_not_in. exact Hcs. }
  assert (Hold' : Forall (fun s => active (stopStream cs sc) s = false) old).
  { eapply Forall_impl; [|exact Hold]. intros s Hs. apply stopStream_mono. exact Hs. }
  assert (Hact : active (stopStream cs sc) (mkStream [n]) = true).
  { unfold active. simpl. rewrite Hlive'. reflexivity. }
  split; [reflexivity|]. split; [|split].
  - unfold activeStreams, unmount. simpl.
    rewrite filter_app. simpl. rewrite Hact. simpl.
    rewrite (filter_none _ _ Hold'). reflexivity.
  - unfold releaseCount, acquireCount, releasedStreams, unmount. simpl.
    rewrite filter_app, length_app. simpl. rewrite Hact. simpl.
    rewrite filter_all.
    + rewrite length_app. simpl. lia.
    + eapply Forall_impl; [|exact Hold']. intros s Hs. simpl in Hs.
      rewrite Hs. reflexivity.
  - intros es Hes. induction Hes as [|ev es Hev _ IH]; [reflexivity|].
    unfold run in *. simpl fold_left.
    replace (step B _ ev) with
      (unmount (mkMachine
        (mkSys (mkApp (Some (mkStream [n])) vintage [] false false None
                      (facingAfter n) false 24 false)
               (Some freshVideo) (Some freshCanvas) [])
        true (Some (facingAfter n)) cs [] (old ++ [mkStream [n]]) sc (S n) 0%nat)).
    + exact IH.
    + destruct ev as [ | | d e | f | k | k granted | ]; try reflexivity.
      * congruence.
      * simpl. destruct k; reflexivity.
Qed.

(** ** Streams nothing refers to *)

Lemma capturePhoto_stream (B : Browser) d e w :
  stream (app (capturePhoto B d e w)) = stream (app w).
Proof.
  unfold capturePhoto.
  destruct (videoRef w); [|reflexivity].
  destruct (canvasRef w) as [c|]; [|reflexivity].
  destruct (filmCount (app w) <=? 0); [reflexivity|].
  destruct (has2d c); reflexivity.
Qed.

Lemma galleryClick_stream (i : Input) (s : AppState) :
  stream (galleryClick i s) = stream s.
Proof.
  destruct i as [ev | | | n | | | ]; simpl; try reflexivity.
  - destruct (List.length (photos s) =? 0)%nat; reflexivity.
  - destruct (showGallery s); reflexivity.
  - destruct (showGallery s); [|reflexivity].
    destruct (nth_error (photos s) n); reflexivity.
  - destruct (selectedPhoto s); reflexivity.
  - destruct (selectedPhoto s); reflexivity.
Qed.

Lemma unreferenced_withSys (t : Track) (m : Machine) (w : Sys) :
  stream (app w) = stream (app (sys m)) ->
  Unreferenced t m -> Unreferenced t (withSys w m).
Proof.
  intros E [H1 H2 H3 H4]. constructor; simpl; try assumption.
  rewrite E. exact H3.
Qed.

Lemma commit_unreferenced (t : Track) (m : Machine) :
  Unreferenced t m -> Unreferenced t (commit m).
Proof.
  destruct m as [[a vr cr tm] mo ed cs pe op sc nt el].
  destruct a as [st cf ph ic sg sp fm fa fc il].
  intros [H1 H2 H3 H4]. simpl in *.
  assert (Hrun : trackStopped (stopStream st (stopStream cs sc)) t = false).
  { apply stopStream_not_stopped; [|exact H3].
    apply stopStream_not_stopped; assumption. }
  unfold commit, runEffect. simpl.
  destruct ed as [dep|]; [destruct (FacingMode_eqb dep fm)|];
    constructor; simpl; assumption.
Qed.

Lemma commit_opened (m : Machine) : opened (commit m) = opened m.
Proof.
  destruct m as [[a vr cr tm] mo ed cs pe op sc nt el].
  destruct a as [st cf ph ic sg sp fm fa fc il].
  unfold commit, runEffect. simpl.
  destruct ed as [dep|]; [destruct (FacingMode_eqb dep fm)|]; reflexivity.
Qed.

Lemma resume_unreferenced (t : Track) (granted : bool) (m : Machine) :
  Unreferenced t m -> Unreferenced t (resumeStartCamera granted m).
Proof.
  intros [H1 H2 H3 H4]. unfold resumeStartCamera.
  destruct granted; constructor; simpl; try assumption; try lia.
  - destruct (mounted m); simpl; [|exact H3].
    intros s [= <-]. simpl. intros [E | []]. lia.
  - destruct (mounted m); exact H3.
Qed.

Lemma step_unreferenced (B : Browser) (t : Track) (m : Machine) (ev : Event) :
  Unreferenced t m -> Unreferenced t (step B m ev).
Proof.
  intros Hu.
  destruct ev as [ | | d e | f | n | n granted | ]; unfold step; cbv beta iota.
  - destruct (mounted m); [exact Hu|]. apply commit_unreferenced.
    destruct Hu as [H1 H2 H3 H4]. constructor; assumption.
  - destruct (mounted m); cbn [negb]; [|exact Hu].
    apply commit_unreferenced, unreferenced_withSys; [reflexivity | exact Hu].
  - destruct (mounted m); cbn [negb]; [|exact Hu].
    apply commit_unreferenced, unreferenced_withSys; [|exact Hu].
    unfold shutterClick. destruct (shutterDisabled (app (sys m))); [reflexivity|].
    apply capturePhoto_stream.
  - destruct (mounted m); cbn [negb]; [|exact Hu].
    apply commit_unreferenced, unreferenced_withSys; [reflexivity | exact Hu].
  - destruct (mounted m); cbn [negb]; [|exact Hu].
    destruct (nth_error (timers (sys m)) n) as [[delay a]|]; [|exact Hu].
    apply commit_unreferenced, unreferenced_withSys; [|exact Hu].
    destruct a; reflexivity.
  - destruct (nth_error (pending m) n); [|exact Hu].
    assert (Hu1 : Unreferenced t
              (mkMachine (sys m) (mounted m) (effectDeps m) (cleanupStream m)
                         (removeNth n (pending m)) (opened m) (stopCalls m)
                         (nextTrack m) (errorLog m))).
    { destruct Hu as [H1 H2 H3 H4]. constructor; assumption. }
    destruct (mounted m) eqn:Hmo.
    + apply commit_unreferenced, resume_unreferenced. exact Hu1.
    + apply resume_unreferenced. exact Hu1.
  - destruct (mounted m); cbn [negb]; [|exact Hu].
    destruct Hu as [H1 H2 H3 H4]. unfold unmount. constructor; simpl.
    + apply stopStream_not_stopped; assumption.
    + exact H2.
    + exact H3.
    + discriminate.
Qed.

Lemma step_opened (B : Browser) (m : Machine) (ev : Event) (s : MediaStream) :
  In s (opened m) -> In s (opened (step B m ev)).
Proof.
  intros Hs.
  destruct ev as [ | | d e | f | n | n granted | ]; unfold step; cbv beta iota.
  - destruct (mounted m); [exact Hs|]. rewrite commit_opened. exact Hs.
  - destruct (mounted m); cbn [negb]; [|exact Hs]. rewrite commit_opened. exact Hs.
  - destruct (mounted m); cbn [negb]; [|exact Hs]. rewrite commit_opened. exact Hs.
  - destruct (mounted m); cbn [negb]; [|exact Hs]. rewrite commit_opened. exact Hs.
  - destruct (mounted m); cbn [negb]; [|exact Hs].
    destruct (nth_error (timers (sys m)) n) as [[delay a]|]; [|exact Hs].
    rewrite commit_opened. exact Hs.
  - destruct (nth_error (pending m) n); [|exact Hs].
    assert (Hr : In s (opened (resumeStartCamera granted
              (mkMachine (sys m) (mounted m) (effectDeps m) (cleanupStream m)
                         (removeNth n (pending m)) (opened m) (stopCalls m)
                         (nextTrack m) (errorLog m))))).
    { unfold resumeStartCamera. destruct granted; simpl; [|exact Hs].
      apply in_or_app. left. exact Hs. }
    destruct (mounted m); [rewrite commit_opened|]; exact Hr.
  - destruct (mounted m); cbn [negb]; exact Hs.
Qed.

Lemma interact_unreferenced (B : Browser) (t : Track) (m : Machine) (i : Input)
    (s : MediaStream) :
  Unreferenced t m /\ In s (opened m) ->
  Unreferenced t (interact B m i) /\ In s (opened (interact B m i)).
Proof.
  intros [Hu Hs].
  destruct i as [ev | | | n | | | ].
  1: { split; [apply step_unreferenced | apply step_opened]; assumption. }
  all: unfold interact; destruct (mounted m); [|split; assumption].
  all: split; [|rewrite commit_opened; exact Hs].
  all: apply commit_unreferenced, unreferenced_withSys; [|exact Hu].
  all: apply galleryClick_stream.
Qed.

(** A stream with an open track that neither the state nor the pending
    cleanup refers to is never stopped: whatever the user does afterwards,
    and however the camera answers, it stays among the open ones. *)
Theorem unreferenced_stream_stays_open (B : Browser) (m : Machine)
    (s : MediaStream) (t : Track) (l : list Input) :
  In s (opened m) -> In t (getTracks s) -> Unreferenced t m ->
  In s (activeStreams (fold_left (interact B) l m)).
Proof.
  intros Hs Ht Hu.
  assert (Hrun : Unreferenced t (fold_left (interact B) l m) /\
                 In s (opened (fold_left (interact B) l m))).
  { revert m Hs Hu. induction l as [|i l IH]; intros m Hs Hu; simpl; [split; assumption|].
    destruct (interact_unreferenced B t m i s (conj Hu Hs)) as [Hu' Hs'].
    apply IH; assumption. }
  destruct Hrun as [[Hopen _ _ _] Hin].
  unfold activeStreams. apply filter_In. split; [exact Hin|].
  unfold active. apply existsb_exists. exists t. split; [exact Ht|].
  rewrite Hopen. reflexivity.
Qed.

(** ** Switching before the camera has answered *)

(** When the user switches twice without waiting, both requests are
    granted in turn and the stream of the first one is lost: the second
    [startCamera] ran while the state still held the old stream, so it
    stopped that one again, and the state goes on to hold only the last
    stream.  Two streams are open, and the lost one is referred to by
    neither the state nor the pending cleanup. *)
Theorem overlapping_switches_leak_a_stream (B : Browser) (n : nat) :
  let m := run B init (settledSwitches n ++
             [ClickSwitch; ClickSwitch; Settles 0 true; Settles 0 true]) in
  activeStreams m = [mkStream [S n]; mkStream [S (S n)]] /\
  stream (app (sys m)) = Some (mkStream [S (S n)]) /\
  facingMode (app (sys m)) = facingAfter n /\
  acquireCount m = (n + 3)%nat /\
  releaseCount m = (n + 1)%nat /\
  In (mkStream [S n]) (opened m) /\
  Unreferenced (S n) m.
Proof.
  destruct (settled_facts B n) as (cs & old & sc & Em & Hcs & Hlive & Hold & Hcalls & Hlen).
  cbv zeta. rewrite run_app, Em.
  generalize (facingAfter n) as fm. intros fm.
  set (SC := stopStream (Some (mkStream [n]))
               (stopStream (Some (mkStream [n]))
                  (stopStream (Some (mkStream [n])) (stopStream cs sc)))).
  assert (E4 :
    run B
      (mkMachine
        (mkSys (mkApp (Some (mkStream [n])) vintage [] false false None fm false 24 false)
               (Some freshVideo) (Some freshCanvas) [])
        true (Some fm) cs [] (old ++ [mkStream [n]]) sc (S n) 0%nat)
      [ClickSwitch; ClickSwitch; Settles 0 true; Settles 0 true] =
    mkMachine
      (mkSys (mkApp (Some (mkStream [S (S n)])) vintage [] false false None fm false 24 false)
             (Some (mkVideo (Some (mkStream [S (S n)])) 0 0 (fun _ _ => transparent)))
             (Some freshCanvas) [])
      true (Some fm) (Some (mkStream [n])) []
      (((old ++ [mkStream [n]]) ++ [mkStream [S n]]) ++ [mkStream [S (S n)]])
      SC (S (S (S n))) 0%nat).
  { destruct fm; reflexivity. }
  rewrite E4. clear E4.
  assert (HSC : Forall (fun x => (x < S n)%nat) SC).
  { unfold SC. repeat (apply stopStream_fresh; [|simpl; constructor; [lia | constructor]]).
    apply stopStream_fresh; [exact Hcalls|].
    destruct cs as [s|]; [|exact I].
    eapply Forall_impl; [|exact Hcs]. simpl. intros; lia. }
  assert (Hn : trackStopped SC n = true).
  { unfold SC. simpl. rewrite trackStopped_app. simpl.
    rewrite Nat.eqb_refl, orb_true_r. reflexivity. }
  assert (HoldSC : Forall (fun s => active SC s = false) old).
  { eapply Forall_impl; [|exact Hold]. intros s Hs. unfold SC.
    do 4 apply stopStream_mono. exact Hs. }
  assert (H1 : trackStopped SC (S n) = false) by (apply fresh_not_stopped; exact HSC).
  assert (H2 : trackStopped SC (S (S n)) = false).
  { apply fresh_not_stopped. eapply Forall_impl; [|exact HSC]. simpl. intros; lia. }
  assert (Hact : List.filter (active SC)
                   (((old ++ [mkStream [n]]) ++ [mkStream [S n]]) ++ [mkStream [S (S n)]])
                 = [mkStream [S n]; mkStream [S (S n)]]).
  { rewrite !filter_app, (filter_none _ _ HoldSC). simpl.
    unfold active. simpl. rewrite Hn, H1, H2. reflexivity. }
  assert (Hrel : List.filter (fun s => negb (active SC s))
                   (((old ++ [mkStream [n]]) ++ [mkStream [S n]]) ++ [mkStream [S (S n)]])
                 = old ++ [mkStream [n]]).
  { rewrite !filter_app. rewrite filter_all.
    - simpl. unfold active. simpl. rewrite Hn, H1, H2. simpl.
      rewrite !app_nil_r. reflexivity.
    - eapply Forall_impl; [|exact HoldSC]. intros s Hs. simpl in Hs.
      rewrite Hs. reflexivity. }
  split; [exact Hact|]. split; [reflexivity|]. split; [reflexivity|].
  split; [unfold acquireCount; simpl; rewrite !length_app; simpl; lia|].
  split; [unfold releaseCount, releasedStreams; simpl; rewrite Hrel, length_app; simpl; lia|].
  split.
  - simpl. apply in_or_app. left. apply in_or_app. right. left. reflexivity.
  - constructor; simpl.
    + exact H1.
    + lia.
    + intros s [= <-]. simpl. intros [E | []]. lia.
    + intros s [= <-]. simpl. intros [E | []]. lia.
Qed.

Lemma unreferenced_stream_stays_open_witness :
  let m := run demoBrowser init
             [Mount; Settles 0 true; ClickSwitch; ClickSwitch;
              Settles 0 true; Settles 0 true] in
  let l := [Session ClickSwitch; Session (Settles 0 true); Session Unmount] in
  (In (mkStream [1%nat]) (opened m) /\ In 1%nat (getTracks (mkStream [1%nat])) /\
   Unreferenced 1%nat m) /\
  In (mkStream [1%nat]) (activeStreams (fold_left (interact demoBrowser) l m)).
Proof.
  intros m l.
  assert (Hin : In (mkStream [1%nat]) (opened m)).
  { vm_compute. right. left. reflexivity. }
  assert (Ht : In 1%nat (getTracks (mkStream [1%nat]))) by (left; reflexivity).
  assert (Hu : Unreferenced 1%nat m).
  { constructor.
    - vm_compute. reflexivity.
    - vm_compute. repeat constructor.
    - vm_compute. intros s E. injection E as <-. intros [H | []]. discriminate.
    - vm_compute. intros s E. injection E as <-. intros [H | []]. discriminate. }
  split; [split; [exact Hin | split; [exact Ht | exact Hu]]|].
  exact (unreferenced_stream_stays_open demoBrowser m (mkStream [1%nat]) 1%nat l Hin Ht Hu).
Defined.

(** ** A camera that is refused *)

(** When the request of a switch is refused, the error is logged once
    and the loading state ends all the same.  No stream is open; the state
    still holds the old stream, which [startCamera] had stopped before it
    asked; the facing mode stays switched; and the shutter is enabled, so
    a press takes a Photo and uses an exposure with no camera behind it.
    The same holds when the very first request is refused. *)
Theorem refused_camera_ends_loading (B : Browser) (n : nat) (d e : Z) :
  let m := run B init (settledSwitches n ++ [ClickSwitch; Settles 0 false]) in
  activeStreams m = [] /\
  stream (app (sys m)) = Some (mkStream [n]) /\
  facingMode (app (sys m)) = facingAfter (S n) /\
  isLoading (app (sys m)) = false /\
  errorLog m = 1%nat /\
  acquireCount m = S n /\
  shutterDisabled (app (sys m)) = false /\
  filmCount (app (sys (step B m (ClickShutter d e)))) = 23 /\
  (let m0 := run B init [Mount; Settles 0 false] in
   stream (app (sys m0)) = None /\ opened m0 = [] /\ errorLog m0 = 1%nat /\
   isLoading (app (sys m0)) = false /\ shutterDisabled (app (sys m0)) = false /\
   filmCount (app (sys (step B m0 (ClickShutter d e)))) = 23).
Proof.
  destruct (settled_facts B n) as (cs & old & sc & Em & Hcs & Hlive & Hold & Hcalls & Hlen).
  cbv zeta. rewrite run_app, Em. cbn [facingAfter].
  generalize (facingAfter n) as fm. intros fm.
  assert (E2 :
    run B
      (mkMachine
        (mkSys (mkApp (Some (mkStream [n])) vintage [] false false None fm false 24 false)
               (Some freshVideo) (Some freshCanvas) [])
        true (Some fm) cs [] (old ++ [mkStream [n]]) sc (S n) 0%nat)
      [ClickSwitch; Settles 0 false] =
    mkMachine
      (mkSys (mkApp (Some (mkStream [n])) vintage [] false false None
                    (if FacingMode_eqb fm user then environment else user)
                    false 24 false)
             (Some freshVideo) (Some freshCanvas) [])
      true (Some (if FacingMode_eqb fm user then environment else user))
      (Some (mkStream [n])) [] (old ++ [mkStream [n]])
      (stopStream (Some (mkStream [n])) (stopStream cs sc)) (S n) 1%nat).
  { destruct fm; reflexivity. }
  rewrite E2. clear E2.
  assert (Hnone : List.filter (active (stopStream (Some (mkStream [n])) (stopStream cs sc)))
                              (old ++ [mkStream [n]]) = []).
  { apply filter_none. apply Forall_app. split.
    - eapply Forall_impl; [|exact Hold]. intros s Hs.
      do 2 apply stopStream_mono. exact Hs.
    - constructor; [|constructor]. unfold active. simpl.
      rewrite trackStopped_app. simpl. rewrite Nat.eqb_refl, orb_true_r. reflexivity. }
  split; [exact Hnone|].
  do 4 (split; [reflexivity|]).
  split; [unfold acquireCount; simpl; rewrite length_app; simpl; lia|].
  split; [reflexivity|].
  split; [destruct fm; reflexivity|].
  repeat split.
Qed.

(** ** What a capture sees *)

(** In a session where every switch is waited for, the stream that is
    granted never reaches the [<video>]: [isLoading] is set while
    [startCamera] waits, the element is not rendered then, and
    [videoRef.current] is null when the stream arrives.  The element
    rendered afterwards has no source, so a capture, whatever the filter,
    encodes a canvas without rows. *)
Theorem granted_stream_never_attached (B : Browser) (n : nat)
    (f : FilterType) (d e : Z) :
  let m0 := run B init (settledSwitches n) in
  let m := run B init (settledSwitches n ++ [ClickFilter f; ClickShutter d e]) in
  stream (app (sys m0)) = Some (mkStream [n]) /\
  option_map srcObject (videoRef (sys m0)) = Some None /\
  option_map videoWidth (videoRef (sys m0)) = Some 0%nat /\
  photos (app (sys m)) =
    [mkPhoto (toString d) (encodeImage B "image/jpeg" (9 # 10) []) f e] /\
  filmCount (app (sys m)) = 23.
Proof.
  destruct (settled_facts B n) as (cs & old & sc & Em & _).
  cbv zeta. rewrite run_app, Em.
  generalize (facingAfter n) as fm. intros fm.
  do 3 (split; [reflexivity|]).
  destruct fm, f; split; reflexivity.
Qed.

(** ** The counter as the user sees it *)

(** Whatever has happened since the start, the film counter on the top
    panel shows exactly two characters, and they read back as the number
    of exposures left. *)
Theorem film_display_always_two_digits (B : Browser) (l : list Input) :
  let s := app (sys (fold_left (interact B) l init)) in
  String.length (filmDisplay s) = 2%nat /\
  option_map Z.of_int (NilEmpty.int_of_string (filmDisplay s)) = Some (filmCount s).
Proof.
  cbv zeta. apply film_display_two_digits.
  destruct (GalleryInv_run B l) as [H1 H2 _ _]. split; assumption.
Qed.

(** ** Deleting when identifiers repeat *)

(** [deletePhoto] removes every Photo that carries the identifier, however
    many there are, and returns one exposure at most.  After two captures
    that read the same [Date.now()], one press of the delete button empties
    the gallery and leaves 23 exposures: one is lost. *)
Theorem delete_removes_every_photo_with_id (s : AppState) (photoId : string) :
  List.length (photos s) =
    (List.length (photos (deletePhoto photoId s)) +
     count_occ string_dec (map id (photos s)) photoId)%nat /\
  filmCount (deletePhoto photoId s) <= filmCount s + 1 /\
  (let m := fold_left (interact demoBrowser)
              [Session Mount; Session (Settles 0 true);
               Session (ClickShutter 1000 1000);
               Session (TimerFires 0); Session (TimerFires 0);
               Session (ClickShutter 1000 1001);
               GalleryButton; GalleryItem 0; DeleteButton] init in
   photos (app (sys m)) = [] /\ filmCount (app (sys m)) = 23).
Proof.
  split; [|split].
  - rewrite deletePhoto_photos.
    induction (photos s) as [|a g IH]; [reflexivity|].
    simpl. destruct (String.eqb_spec (id a) photoId) as [E | N].
    + destruct (string_dec (id a) photoId) as [_ | N']; [|contradiction].
      simpl. rewrite IH. lia.
    + destruct (string_dec (id a) photoId) as [E' | _]; [contradiction|].
      simpl. rewrite IH. reflexivity.
  - rewrite deletePhoto_filmCount. lia.
  - vm_compute. split; reflexivity.
Qed.
